(** * yatbl: the webhook bot (src/WebhookBot.js)

    A shallow embedding of the [WebhookBot] class and the properties of its
    webhook lifecycle: registration ([setWebhook]), the built-in server
    ([startServer]), the combined start ([setWebhookAndStartServer]) and the
    teardown ([deleteWebhook]).

    The source file holds two revisions of the class.  The later one, which
    validates the URL and honours [options.path], is embedded in module [V2]
    and is the one the lifecycle properties are stated for; the earlier one
    is embedded in module [V1] for comparison.

    Conventions of the embedding.
    - JavaScript values are the primitives and references to plain objects:
      objects whose prototype is [Object.prototype], whose own properties are
      configurable, enumerable data properties with string keys, and which
      hold no functions.  Objects live in a store, so that a mutation made
      through one reference is seen through every other one.
    - The primitives the language runtime provides and this repository does
      not define (IEEE numbers, the WHATWG [URL] parser) are the fields of
      the class [Platform]; nothing is assumed about them.
    - The collaborators ([tapi] of ./bot, the function exported by ./server,
      the [close] method of the server it returns) and the global scope are
      the fields of the record [World]; a collaborator answers a call by
      returning or by throwing, and touches neither the store nor the bot.
      An [async] method is a computation in the monad [M]: it reads and
      updates the object store and the bot instance, logs every call to a
      collaborator together with its outcome, and either returns a value
      (the promise is fulfilled) or throws (the promise is rejected);
      [await] is sequencing. *)

From Stdlib Require Import ZArith Ascii String.
From stdpp Require Import base gmap strings pretty.

Local Open Scope string_scope.
Local Open Scope list_scope.

(** ** The language runtime *)

Class Platform := {
  (** the Number type *)
  number : Type;
  (** numeric literals such as [3000], [0] and [1] *)
  number_of_Z : Z -> number;
  number_NaN : number;
  (** Number::add *)
  number_add : number -> number -> number;
  (** ToBoolean on numbers: false for +0, -0 and NaN *)
  number_to_boolean : number -> bool;
  (** Number::toString *)
  number_to_string : number -> string;
  (** [URL_protocol s] is [Some p] when [new URL(s)] succeeds and [p] is
      the [protocol] of the result, [None] when [new URL(s)] throws *)
  URL_protocol : string -> option string;
}.

(** ** Values, objects and errors *)

Definition loc := positive.

Inductive value `{Platform} :=
| VUndefined
| VNull
| VBoolean (b : bool)
| VNumber (n : number)
| VString (s : string)
| VObject (l : loc).

(** Thrown values. [Error] is the built-in [Error] class with its message;
    [Thrown] stands for any other value a collaborator throws or rejects
    with. *)
Inductive error :=
| TypeError
| ReferenceError (ident : string)
| Error (message : string)
| Thrown (description : string).

Inductive outcome (A : Type) :=
| Return (a : A)
| Throw (e : error).
Arguments Return {A} a.
Arguments Throw {A} e.

(** The handle of a server returned by ./server. *)
Definition server := nat.

(** What [server.close(callback)] does: it throws, or it calls [callback]
    once, with an error or without one. *)
Inductive close_result :=
| CloseThrows (e : error)
| CloseCallback (err : option error).

Section Model.
Context {P : Platform}.

(** An object: its own properties. *)
Local Abbreviation object := (gmap string value).

(** A call to a collaborator, with its arguments and its outcome, or a line
    written to the console. *)
Inductive event :=
| EvStartServer (port : value) (token : string) (r : outcome server)
| EvTapi (method : string) (payload : object) (r : outcome unit)
| EvClose (srv : server) (r : close_result)
| EvConsoleLog (line : string)
| EvConsoleError (line : string)
| EvConsoleErrorValue (e : error).

(** The instance fields of a [WebhookBot] the methods use.  [_BOT_TOKEN] is
    set by the constructor of [Bot] from its [String] parameter;
    [_webhookServer] is [undefined] ([None]) until [startServer] sets it. *)
Record WebhookBot := {
  _BOT_TOKEN : string;
  _webhookServer : option server;
}.

(** The collaborators and the global scope. *)
Record World := {
  (** the global bindings of the identifiers [BOT_TOKEN] and [options],
      which the class uses free; [None]: no such binding *)
  global_BOT_TOKEN : option value;
  global_options : option value;
  (** [this.tapi(method, payload)] awaited: the value it yields is not used *)
  tapi : string -> object -> outcome unit;
  (** the function exported by ./server, called with the port and the token *)
  server_module : value -> string -> outcome server;
  (** [server.close(callback)] *)
  server_close : server -> close_result;
}.

(** ** The monad of the methods *)

Record state := {
  heap : gmap loc object;
  this : WebhookBot;
}.

Record run (A : Type) := {
  result : outcome A;
  final : state;
  calls : list event;
}.
Arguments result {A} r.
Arguments final {A} r.
Arguments calls {A} r.

Definition M (A : Type) : Type := state -> run A.

Definition ret {A} (a : A) : M A :=
  fun st => {| result := Return a; final := st; calls := [] |}.

Definition throw {A} (e : error) : M A :=
  fun st => {| result := Throw e; final := st; calls := [] |}.

Definition bind {A B} (m : M A) (k : A -> M B) : M B :=
  fun st =>
    match m st with
    | {| result := Return a; final := st'; calls := c |} =>
        match k a st' with
        | {| result := r; final := st''; calls := c' |} =>
            {| result := r; final := st''; calls := c ++ c' |}
        end
    | {| result := Throw e; final := st'; calls := c |} =>
        {| result := Throw e; final := st'; calls := c |}
    end.

(** [try { body } catch (e) { handler e }] *)
Definition try_catch {A} (body : M A) (handler : error -> M A) : M A :=
  fun st =>
    match body st with
    | {| result := Return a; final := st'; calls := c |} =>
        {| result := Return a; final := st'; calls := c |}
    | {| result := Throw e; final := st'; calls := c |} =>
        match handler e st' with
        | {| result := r; final := st''; calls := c' |} =>
            {| result := r; final := st''; calls := c ++ c' |}
        end
    end.

Definition emit (ev : event) : M unit :=
  fun st => {| result := Return tt; final := st; calls := [ev] |}.

Definition get_state : M state :=
  fun st => {| result := Return st; final := st; calls := [] |}.

Definition put_heap (h : gmap loc object) : M unit :=
  fun st => {| result := Return tt;
               final := {| heap := h; this := this st |};
               calls := [] |}.

Definition put_this (b : WebhookBot) : M unit :=
  fun st => {| result := Return tt;
               final := {| heap := heap st; this := b |};
               calls := [] |}.

Definition of_outcome {A} (o : outcome A) : M A :=
  match o with
  | Return a => ret a
  | Throw e => throw e
  end.

#[global] Instance M_ret : MRet M := @ret.
#[global] Instance M_bind : MBind M := fun A B k m => bind m k.

(** ** The operations of the language the methods use *)

(** ToBoolean: the truthiness tested by [||], [if] and [?:]. *)
Definition ToBoolean (v : value) : bool :=
  match v with
  | VUndefined | VNull => false
  | VBoolean b => b
  | VNumber n => number_to_boolean n
  | VString s => negb (String.eqb s "")
  | VObject _ => true
  end.

(** The own properties of the object at [l]. *)
Definition props_at (h : gmap loc object) (l : loc) : object :=
  default ∅ (h !! l).

(** A computation that reads the store and does nothing else. *)
Definition reading {A} (f : gmap loc object -> outcome A) : M A :=
  fun st => {| result := f (heap st); final := st; calls := [] |}.

(** ToPrimitive.  A plain object inherits [valueOf], which returns the object
    itself, and [toString], which returns ["[object Object]"]; an own
    property [toString] hides the inherited method and, holding no function,
    leaves no way to convert the object.  Both orders of trying the two
    methods give the same result. *)
Definition to_primitive (h : gmap loc object) (v : value) : outcome value :=
  match v with
  | VObject l =>
      match props_at h l !! "toString" with
      | Some _ => Throw TypeError
      | None => Return (VString "[object Object]")
      end
  | _ => Return v
  end.

Definition ToPrimitive (v : value) : M value :=
  reading (fun h => to_primitive h v).

(** ToString, on a primitive and then on any value. *)
Definition string_of_primitive (v : value) : string :=
  match v with
  | VUndefined => "undefined"
  | VNull => "null"
  | VBoolean true => "true"
  | VBoolean false => "false"
  | VNumber n => number_to_string n
  | VString s => s
  | VObject _ => "[object Object]"
  end.

Definition to_string (h : gmap loc object) (v : value) : outcome string :=
  match to_primitive h v with
  | Return p => Return (string_of_primitive p)
  | Throw e => Throw e
  end.

Definition ToString (v : value) : M string :=
  reading (fun h => to_string h v).

(** ToNumber on the primitives that are not strings. *)
Definition ToNumber (v : value) : number :=
  match v with
  | VNull | VBoolean false => number_of_Z 0
  | VBoolean true => number_of_Z 1
  | VNumber n => n
  | _ => number_NaN
  end.

Definition is_string (v : value) : bool :=
  match v with VString _ => true | _ => false end.

(** The operator [+]: concatenation as soon as one operand is a string once
    made primitive, the sum of the numbers otherwise. *)
Definition js_add (a b : value) : M value :=
  pa ← ToPrimitive a;
  pb ← ToPrimitive b;
  if is_string pa || is_string pb
  then ret (VString (string_of_primitive pa +:+ string_of_primitive pb))
  else ret (VNumber (number_add (ToNumber pa) (ToNumber pb))).

(** [v.k], for a key [k] that no built-in prototype defines (the methods
    read [path] and [PORT]): reading from [undefined] or [null] throws, an
    object yields its own property or [undefined], the other primitives
    yield [undefined]. *)
Definition get (h : gmap loc object) (v : value) (k : string)
    : outcome value :=
  match v with
  | VUndefined | VNull => Throw TypeError
  | VObject l => Return (default VUndefined (props_at h l !! k))
  | _ => Return VUndefined
  end.

Definition Get (v : value) (k : string) : M value :=
  reading (fun h => get h v k).

(** [delete v.k], for [v] an object: the property is removed from the object
    in the store. *)
Definition Delete (v : value) (k : string) : M unit :=
  match v with
  | VObject l =>
      st ← get_state;
      put_heap (<[l := delete k (props_at (heap st) l)]> (heap st))
  | _ => ret tt
  end.

(** The own enumerable properties of a string: its characters, under their
    indices. *)
Fixpoint string_props (i : nat) (s : string) : object :=
  match s with
  | EmptyString => ∅
  | String c s' =>
      <[pretty i := VString (String c EmptyString)]> (string_props (S i) s')
  end.

(** The properties [...v] contributes to an object literal: the own
    properties of an object or of a string, none for another value. *)
Definition own_properties (h : gmap loc object) (v : value) : object :=
  match v with
  | VObject l => props_at h l
  | VString s => string_props 0 s
  | _ => ∅
  end.

Definition spread (v : value) : M object :=
  reading (fun h => Return (own_properties h v)).

(** The object literal [{ url: u, ...v }]: the properties spread after [url]
    win over it. *)
Definition url_literal (u : value) (rest : object) : object :=
  rest ∪ {["url" := u]}.

(** A parameter with a default: the default is evaluated when the argument
    is [undefined]. *)
Definition default_parameter (v : value) (dflt : M value) : M value :=
  match v with
  | VUndefined => dflt
  | _ => ret v
  end.

(** The object literal [{}]: a new object in the store. *)
Definition new_object : M value :=
  st ← get_state;
  let l := fresh (dom (heap st)) in
  put_heap (<[l := ∅]> (heap st));; ret (VObject l).

(** [new URL(v).protocol]: [v] is converted to a string and parsed; a
    failure of either step throws. *)
Definition url_protocol (h : gmap loc object) (v : value) : outcome string :=
  match to_string h v with
  | Return s =>
      match URL_protocol s with
      | Some p => Return p
      | None => Throw TypeError
      end
  | Throw e => Throw e
  end.

Definition new_URL_protocol (v : value) : M string :=
  reading (fun h => url_protocol h v).

(** A free identifier: its global binding, or a ReferenceError. *)
Definition global (ident : string) (binding : option value) : M value :=
  match binding with
  | Some v => ret v
  | None => throw (ReferenceError ident)
  end.

(** [this._webhookServer = srv] *)
Definition set_webhookServer (srv : server) : M unit :=
  st ← get_state;
  put_this {| _BOT_TOKEN := _BOT_TOKEN (this st);
              _webhookServer := Some srv |}.

(** [console.log(line)], and [console.error] of a line and of a caught
    error. *)
Definition console_log (line : string) : M unit := emit (EvConsoleLog line).
Definition console_error (line : string) : M unit := emit (EvConsoleError line).
Definition console_error_value (e : error) : M unit :=
  emit (EvConsoleErrorValue e).

(** [await this.tapi(method, payload)] *)
Definition await_tapi (w : World) (method : string) (payload : object)
    : M unit :=
  let r := tapi w method payload in
  emit (EvTapi method payload r);; of_outcome r.

End Model.

Arguments result {P A} r.
Arguments final {P A} r.
Arguments calls {P A} r.
Arguments props_at {P} h l : simpl never.

(** ** The class, later revision *)

Module V2.
Section Methods.
Context {P : Platform} (w : World).

(** [startServer(PORT = 3000)]: the function of ./server is called and the
    server it returns is kept in [this._webhookServer]. *)
Definition startServer (PORT : value) : M value :=
  PORT ← default_parameter PORT (ret (VNumber (number_of_Z 3000)));
  st ← get_state;
  let token := _BOT_TOKEN (this st) in
  let r := server_module w PORT token in
  emit (EvStartServer PORT token r);;
  srv ← of_outcome r;
  set_webhookServer srv;;
  ret VUndefined.

(** The error [setWebhook] throws for a URL it refuses. *)
Definition invalid_webhook_URL : error :=
  Error
    "Invalid Webhook URL! See 'https://core.telegram.org/bots/api#setwebhook'".

(** The [try] block that opens [setWebhook]: whatever is thrown inside is
    caught and replaced. *)
Definition validate_url (url : value) : M unit :=
  try_catch
    (protocol ← new_URL_protocol url;
     if String.eqb protocol "https:" then ret tt else throw (Error ""))
    (fun _ => throw invalid_webhook_URL).

(** [a || b], for [b] without effects. *)
Definition or_else (a b : value) : value :=
  if ToBoolean a then a else b.

(** [setWebhook(url, options = {})] *)
Definition setWebhook (url options : value) : M value :=
  options ← default_parameter options new_object;
  validate_url url;;
  path ← Get options "path";
  st ← get_state;
  let urlPath := or_else path (VString (_BOT_TOKEN (this st))) in
  path' ← Get options "path";
  (if ToBoolean path' then Delete options "path" else ret tt);;
  u ← js_add url urlPath;
  rest ← spread options;
  await_tapi w "setWebhook" (url_literal u rest);;
  ret (VBoolean true).

(** [setWebhookAndStartServer(options)]: [setWebhook] receives [options] as
    its [url] and no second argument. *)
Definition setWebhookAndStartServer (options : value) : M value :=
  PORT ← Get options "PORT";
  startServer PORT;;
  setWebhook options VUndefined;;
  ret VUndefined.

(** [this._webhookServer.close((err) => (err ? reject(err) : resolve()))]
    in a new promise, awaited. *)
Definition await_close : M unit :=
  st ← get_state;
  match _webhookServer (this st) with
  | None => throw TypeError
  | Some srv =>
      let r := server_close w srv in
      emit (EvClose srv r);;
      match r with
      | CloseThrows e => throw e
      | CloseCallback (Some err) => throw err
      | CloseCallback None => ret tt
      end
  end.

(** [deleteWebhook()]: [BOT_TOKEN] and [options] are free in the method. *)
Definition deleteWebhook : M value :=
  try_catch
    (token ← global "BOT_TOKEN" (global_BOT_TOKEN w);
     s ← ToString token;
     let url := VString ("https://api.telegram.org/bot" +:+ s +:+ "/") in
     options ← global "options" (global_options w);
     rest ← spread options;
     await_tapi w "deleteWebhook" (url_literal url rest);;
     await_close;;
     console_log "Internal webhook server closed";;
     ret (VBoolean true))
    (fun error =>
     console_error "Failed to close internal webhook server";;
     console_error_value error;;
     ret (VBoolean false)).

End Methods.
End V2.

(** ** The class, earlier revision

    This revision does not import ./server: the identifier [startServer] is
    free in the method of the same name, as [BOT_TOKEN] is in [setWebhook].
    [startServer_bound] tells whether the global scope binds [startServer],
    to the function of ./server. *)

Module V1.
Section Methods.
Context {P : Platform} (w : World) (startServer_bound : bool).

(** [startServer(PORT = 3000)] *)
Definition startServer (PORT : value) : M value :=
  PORT ← default_parameter PORT (ret (VNumber (number_of_Z 3000)));
  (if startServer_bound then ret tt else throw (ReferenceError "startServer"));;
  st ← get_state;
  let token := _BOT_TOKEN (this st) in
  let r := server_module w PORT token in
  emit (EvStartServer PORT token r);;
  srv ← of_outcome r;
  set_webhookServer srv;;
  ret VUndefined.

(** [setWebhook(options = {})]: no URL is taken and none is checked, and
    [options.path] is not read. *)
Definition setWebhook (options : value) : M value :=
  options ← default_parameter options new_object;
  token ← global "BOT_TOKEN" (global_BOT_TOKEN w);
  s ← ToString token;
  let url := VString ("https://api.telegram.org/bot" +:+ s +:+ "/") in
  rest ← spread options;
  await_tapi w "setWebhook" (url_literal url rest);;
  ret (VBoolean true).

(** [setWebhookAndStartServer(PORT, options)] *)
Definition setWebhookAndStartServer (PORT options : value) : M value :=
  setWebhook options;;
  startServer PORT;;
  ret VUndefined.

(** [deleteWebhook()]: the text of the later revision. *)
Definition deleteWebhook : M value := V2.deleteWebhook w.

End Methods.
End V1.

(** ** A runtime and worlds to run the methods in

    The statements below hold for every runtime and every world.  To run the
    methods on concrete inputs, here is a small runtime: the numbers are the
    integers and NaN, and the URL parser reads the scheme (letters, digits,
    [+], [-] and [.] after a first letter, up to the first colon, in lower
    case) and asks for something after the slashes that follow it.  On the
    URLs of the examples it answers as the parser of the language does. *)

Inductive sample_number :=
| SNaN
| SInt (z : Z).

Definition sample_add (a b : sample_number) : sample_number :=
  match a, b with
  | SInt x, SInt y => SInt (x + y)
  | _, _ => SNaN
  end.

Definition sample_to_boolean (a : sample_number) : bool :=
  match a with
  | SNaN => false
  | SInt z => negb (Z.eqb z 0)
  end.

Definition sample_to_string (a : sample_number) : string :=
  match a with
  | SNaN => "NaN"
  | SInt z => pretty z
  end.

Definition is_letter (c : ascii) : bool :=
  let n := nat_of_ascii c in
  (Nat.leb 65 n && Nat.leb n 90) || (Nat.leb 97 n && Nat.leb n 122).

Definition is_scheme_char (c : ascii) : bool :=
  let n := nat_of_ascii c in
  is_letter c || (Nat.leb 48 n && Nat.leb n 57)
  || Nat.eqb n 43 || Nat.eqb n 45 || Nat.eqb n 46.

Definition lower (c : ascii) : ascii :=
  let n := nat_of_ascii c in
  if Nat.leb 65 n && Nat.leb n 90 then ascii_of_nat (n + 32) else c.

(** The scheme and what follows the colon, while every character read is a
    scheme character. *)
Fixpoint split_scheme (s : string) : option (string * string) :=
  match s with
  | EmptyString => None
  | String c s' =>
      if Ascii.eqb c ":" then Some (EmptyString, s')
      else if is_scheme_char c then
        match split_scheme s' with
        | Some (scheme, rest) => Some (String (lower c) scheme, rest)
        | None => None
        end
      else None
  end.

Fixpoint skip_slashes (s : string) : string :=
  match s with
  | String c s' => if Ascii.eqb c "/" then skip_slashes s' else s
  | EmptyString => s
  end.

Definition sample_URL_protocol (s : string) : option string :=
  match s with
  | EmptyString => None
  | String c _ =>
      if is_letter c then
        match split_scheme s with
        | Some (scheme, rest) =>
            if String.eqb (skip_slashes rest) "" then None
            else Some (scheme +:+ ":")
        | None => None
        end
      else None
  end.

Definition sample_platform : Platform := {|
  number := sample_number;
  number_of_Z := SInt;
  number_NaN := SNaN;
  number_add := sample_add;
  number_to_boolean := sample_to_boolean;
  number_to_string := sample_to_string;
  URL_protocol := sample_URL_protocol;
|}.

Module Sample.
Section Worlds.
#[local] Existing Instance sample_platform.

(** A world as Node gives it to the module: neither [BOT_TOKEN] nor
    [options] is bound in the global scope; every collaborator succeeds. *)
Definition node_world : World := {|
  global_BOT_TOKEN := None;
  global_options := None;
  tapi := fun _ _ => Return tt;
  server_module := fun _ _ => Return 1;
  server_close := fun _ => CloseCallback None;
|}.

(** The same world with the two identifiers bound: [BOT_TOKEN] to a token
    and [options] to a value. *)
Definition bound_world (token : string) (options : value) : World := {|
  global_BOT_TOKEN := Some (VString token);
  global_options := Some options;
  tapi := fun _ _ => Return tt;
  server_module := fun _ _ => Return 1;
  server_close := fun _ => CloseCallback None;
|}.

(** With the identifiers bound, a world in which the call of
    [deleteWebhook] is rejected. *)
Definition rejecting_world (token : string) : World := {|
  global_BOT_TOKEN := Some (VString token);
  global_options := Some VUndefined;
  tapi := fun method _ =>
    if String.eqb method "deleteWebhook" then Throw (Thrown "ApiError")
    else Return tt;
  server_module := fun _ _ => Return 1;
  server_close := fun _ => CloseCallback None;
|}.

(** With the identifiers bound, a world in which closing the server reports
    an error to the callback. *)
Definition stuck_world (token : string) : World := {|
  global_BOT_TOKEN := Some (VString token);
  global_options := Some VUndefined;
  tapi := fun _ _ => Return tt;
  server_module := fun _ _ => Return 1;
  server_close := fun _ => CloseCallback (Some (Thrown "ERR_SERVER_NOT_RUNNING"));
|}.

(** A bot with the token ["TOKEN"], before and after its server started,
    and stores to run it in. *)
Definition new_bot : WebhookBot :=
  {| _BOT_TOKEN := "TOKEN"; _webhookServer := None |}.

Definition started_bot : WebhookBot :=
  {| _BOT_TOKEN := "TOKEN"; _webhookServer := Some 1 |}.

Definition empty_store (b : WebhookBot) : state :=
  {| heap := ∅; this := b |}.

(** A store with one object, at location [1]. *)
Definition store_with (o : gmap string value) (b : WebhookBot) : state :=
  {| heap := {[ 1%positive := o ]}; this := b |}.

(** Options for [setWebhook]: a path and a field of the API; a path and a
    URL; a URL alone; an empty path. *)
Definition options_with_path : gmap string value :=
  {[ "path" := VString "x"; "max_connections" := VNumber (number_of_Z 40) ]}.

Definition options_with_path_and_url : gmap string value :=
  {[ "path" := VString "x"; "url" := VString "https://other.example/" ]}.

Definition options_with_url : gmap string value :=
  {[ "url" := VString "https://other.example/" ]}.

Definition options_with_empty_path : gmap string value :=
  {[ "path" := VString "" ]}.

End Worlds.
End Sample.

(** * Properties *)

(** ** Vocabulary of the statements *)

Section Vocabulary.
Context {P : Platform}.
Implicit Types (w : World) (st : state) (options v : value).

(** A computation is silent when it logs nothing, whatever the store. *)
Definition silent {A} (m : M A) : Prop := ∀ st, calls (m st) = [].

(** The properties the caller gives with the argument [options]: those of
    the object passed, none when the argument is left out. *)
Definition options_are st options (props : gmap string value) : Prop :=
  (options = VUndefined ∧ props = ∅)
  ∨ ∃ l, options = VObject l ∧ heap st !! l = Some props.

(** What [setWebhook] returns after the call of [tapi]. *)
Definition registered (r : outcome unit) : outcome value :=
  match r with
  | Return _ => Return (VBoolean true)
  | Throw e => Throw e
  end.

(** The error a [close] reports, by throwing or to its callback. *)
Definition close_error (r : close_result) : option error :=
  match r with
  | CloseThrows e => Some e
  | CloseCallback err => err
  end.

(** The payload [deleteWebhook] sends: the URL is made of the address of
    the API and of the global [BOT_TOKEN]. *)
Definition teardown_payload (token : string) (rest : gmap string value)
    : gmap string value :=
  url_literal (VString ("https://api.telegram.org/bot" +:+ token +:+ "/")) rest.

(** How [deleteWebhook] ends when [e] is caught, [c] being logged by then:
    two lines on the console, and [false]. *)
Definition caught st (c : list event) (e : error) : run value :=
  {| result := Return (VBoolean false);
     final := st;
     calls := c ++ [EvConsoleError "Failed to close internal webhook server";
                    EvConsoleErrorValue e] |}.

(** The ways a run of [deleteWebhook] can go, in the order of the steps that
    can fail. *)
Inductive teardown w st : run value → Prop :=
| teardown_no_token :
    global_BOT_TOKEN w = None →
    teardown w st (caught st [] (ReferenceError "BOT_TOKEN"))
| teardown_no_string token e :
    global_BOT_TOKEN w = Some token →
    to_string (heap st) token = Throw e →
    teardown w st (caught st [] e)
| teardown_no_options token s :
    global_BOT_TOKEN w = Some token →
    to_string (heap st) token = Return s →
    global_options w = None →
    teardown w st (caught st [] (ReferenceError "options"))
| teardown_rejected token s options payload e :
    global_BOT_TOKEN w = Some token →
    to_string (heap st) token = Return s →
    global_options w = Some options →
    payload = teardown_payload s (own_properties (heap st) options) →
    tapi w "deleteWebhook" payload = Throw e →
    teardown w st
      (caught st [EvTapi "deleteWebhook" payload (Throw e)] e)
| teardown_no_server token s options payload :
    global_BOT_TOKEN w = Some token →
    to_string (heap st) token = Return s →
    global_options w = Some options →
    payload = teardown_payload s (own_properties (heap st) options) →
    tapi w "deleteWebhook" payload = Return tt →
    _webhookServer (this st) = None →
    teardown w st
      (caught st [EvTapi "deleteWebhook" payload (Return tt)] TypeError)
| teardown_close_failed token s options payload srv e :
    global_BOT_TOKEN w = Some token →
    to_string (heap st) token = Return s →
    global_options w = Some options →
    payload = teardown_payload s (own_properties (heap st) options) →
    tapi w "deleteWebhook" payload = Return tt →
    _webhookServer (this st) = Some srv →
    close_error (server_close w srv) = Some e →
    teardown w st
      (caught st [EvTapi "deleteWebhook" payload (Return tt);
                  EvClose srv (server_close w srv)] e)
| teardown_closed token s options payload srv :
    global_BOT_TOKEN w = Some token →
    to_string (heap st) token = Return s →
    global_options w = Some options →
    payload = teardown_payload s (own_properties (heap st) options) →
    tapi w "deleteWebhook" payload = Return tt →
    _webhookServer (this st) = Some srv →
    close_error (server_close w srv) = None →
    teardown w st
      {| result := Return (VBoolean true);
         final := st;
         calls := [EvTapi "deleteWebhook" payload (Return tt);
                   EvClose srv (server_close w srv);
                   EvConsoleLog "Internal webhook server closed"] |}.

(** The scenario from start to teardown: the server is started on a port,
    the webhook is registered at a URL without options, and [deleteWebhook]
    is called. *)
Definition lifecycle w (port : value) (url : string) : M value :=
  V2.startServer w port;;
  V2.setWebhook w (VString url) VUndefined;;
  V2.deleteWebhook w.

End Vocabulary.

(** ** Vocabulary of the further statements *)

Section MoreVocabulary.
Context {P : Platform}.

(** The port [startServer] passes on: its argument, 3000 when there is
    none. *)
Definition port_or_default (PORT : value) : value :=
  match PORT with
  | VUndefined => VNumber (number_of_Z 3000)
  | _ => PORT
  end.

(** The address [deleteWebhook] sends as [url], as does [setWebhook] in the
    earlier revision. *)
Definition api_url (token : string) : value :=
  VString ("https://api.telegram.org/bot" +:+ token +:+ "/").

(** The two lines [deleteWebhook] writes when it catches [e]. *)
Definition failure_lines (e : error) : list event :=
  [EvConsoleError "Failed to close internal webhook server";
   EvConsoleErrorValue e].

End MoreVocabulary.

Module MoreSample.
Section Worlds.
#[local] Existing Instance sample_platform.

(** A world in which ./server throws. *)
Definition no_server_world : World := {|
  global_BOT_TOKEN := None;
  global_options := None;
  tapi := fun _ _ => Return tt;
  server_module := fun _ _ => Throw (Thrown "EADDRINUSE");
  server_close := fun _ => CloseCallback None;
|}.

(** A world in which every call of [tapi] is rejected. *)
Definition offline_world : World := {|
  global_BOT_TOKEN := None;
  global_options := None;
  tapi := fun _ _ => Throw (Thrown "ApiError");
  server_module := fun _ _ => Return 1;
  server_close := fun _ => CloseCallback None;
|}.

(** A world in which ./server gives server 1 on port 3000 and server 2 on
    any other port. *)
Definition two_servers_world : World := {|
  global_BOT_TOKEN := None;
  global_options := None;
  tapi := fun _ _ => Return tt;
  server_module := fun port _ =>
    match port with
    | VNumber (SInt 3000) => Return 1
    | _ => Return 2
    end;
  server_close := fun _ => CloseCallback None;
|}.

(** Options whose path is a number. *)
Definition options_with_number_path : gmap string value :=
  {[ "path" := VNumber (number_of_Z 7) ]}.

End Worlds.
End MoreSample.

(** ** Running a method by hand *)

Ltac unfold_M :=
  unfold mbind, M_bind, bind, try_catch, ret, throw, emit, get_state,
    put_heap, put_this, of_outcome, reading, console_log, console_error,
    console_error_value.

(** Unfold the operations of the language, leaving the store alone. *)
Ltac unfold_js :=
  unfold new_URL_protocol, ToString, ToPrimitive, Get, Delete, js_add, spread,
    await_tapi, default_parameter, new_object, global, set_webhookServer.

Lemma cons_eq_inv {A} (x y : A) (l k : list A) :
  x :: l = y :: k → x = y ∧ l = k.
Proof. intros H. by injection H. Qed.

(** Split an equation between [pre ++ ev :: post] and a list that is written
    out into the places [ev] can take in that list; the places where the
    events differ are dropped. *)
Ltac split_calls H :=
  try match type of H with
      | _ = _ ++ _ => symmetry in H
      end;
  repeat match type of H with
         | [] ++ _ = _ => simpl in H
         | (_ :: _) ++ _ = _ => simpl in H
         | ?pre ++ _ = _ => destruct pre
         | _ :: _ = [] => discriminate H
         | _ :: _ = _ :: _ =>
             let Hev := fresh "Hev" in
             apply cons_eq_inv in H as [Hev H];
             first [ discriminate Hev
                   | by (injection Hev; intros; subst; discriminate)
                   | match type of Hev with ?x = _ => subst x end
                   | injection Hev as ?; try subst ]
         end.

Create HintDb silent.

Section Properties.
Context {P : Platform}.
Implicit Types (w : World) (st : state) (url options v : value).
Implicit Types (s : string) (l : loc) (props payload : gmap string value).
Implicit Types (h : gmap loc (gmap string value)).

Lemma props_at_lookup h l props :
  h !! l = Some props → props_at h l = props.
Proof. unfold props_at. intros ->. reflexivity. Qed.

Lemma props_at_insert h l props :
  props_at (<[l := props]> h) l = props.
Proof. unfold props_at. rewrite lookup_insert_eq. reflexivity. Qed.

(** *** What a computation logs *)

Lemma bind_calls {A B} (m : M A) (k : A → M B) st :
  calls ((m ≫= k) st)
  = calls (m st) ++ match result (m st) with
                    | Return a => calls (k a (final (m st)))
                    | Throw _ => []
                    end.
Proof.
  unfold mbind, M_bind, bind.
  destruct (m st) as [[a|e] st' c]; simpl.
  - destruct (k a st'); reflexivity.
  - by rewrite app_nil_r.
Qed.

Lemma try_catch_calls {A} (body : M A) (handler : error → M A) st :
  calls (try_catch body handler st)
  = calls (body st) ++ match result (body st) with
                       | Return _ => []
                       | Throw e => calls (handler e (final (body st)))
                       end.
Proof.
  unfold try_catch.
  destruct (body st) as [[a|e] st' c]; simpl.
  - by rewrite app_nil_r.
  - destruct (handler e st'); reflexivity.
Qed.

Lemma bind_final {A B} (m : M A) (k : A → M B) st :
  final ((m ≫= k) st)
  = match result (m st) with
    | Return a => final (k a (final (m st)))
    | Throw _ => final (m st)
    end.
Proof.
  unfold mbind, M_bind, bind.
  destruct (m st) as [[a|e] st' c]; simpl; [|done].
  by destruct (k a st').
Qed.

Lemma silent_ret {A} (a : A) : silent (ret a).
Proof. by intros st. Qed.

Lemma silent_throw {A} e : silent (@throw _ A e).
Proof. by intros st. Qed.

Lemma silent_get_state : silent get_state.
Proof. by intros st. Qed.

Lemma silent_put_heap h : silent (put_heap h).
Proof. by intros st. Qed.

Lemma silent_reading {A} (f : gmap loc (gmap string value) → outcome A) :
  silent (reading f).
Proof. by intros st. Qed.

Lemma silent_bind {A B} (m : M A) (k : A → M B) :
  silent m → (∀ a, silent (k a)) → silent (m ≫= k).
Proof.
  intros Hm Hk st. rewrite bind_calls, Hm. simpl.
  destruct (result (m st)); [apply Hk | reflexivity].
Qed.

Lemma silent_try_catch {A} (body : M A) handler :
  silent body → (∀ e, silent (handler e)) → silent (try_catch body handler).
Proof.
  intros Hb Hh st. rewrite try_catch_calls, Hb. simpl.
  destruct (result (body st)); [reflexivity | apply Hh].
Qed.

Lemma silent_if {A} (b : bool) (m1 m2 : M A) :
  silent m1 → silent m2 → silent (if b then m1 else m2).
Proof. by destruct b. Qed.

Hint Resolve silent_ret silent_throw silent_get_state silent_put_heap
  silent_reading silent_bind silent_try_catch silent_if : silent.

Lemma silent_ToPrimitive v : silent (ToPrimitive v).
Proof. unfold ToPrimitive. auto with silent. Qed.

Lemma silent_Get v k : silent (Get v k).
Proof. unfold Get. auto with silent. Qed.

Lemma silent_Delete v k : silent (Delete v k).
Proof. destruct v; simpl; auto with silent. Qed.

Lemma silent_spread v : silent (spread v).
Proof. unfold spread. auto with silent. Qed.

Hint Resolve silent_ToPrimitive silent_Get silent_Delete silent_spread
  : silent.

Lemma silent_js_add a b : silent (js_add a b).
Proof. unfold js_add. auto 6 with silent. Qed.

Lemma silent_new_object : silent new_object.
Proof. unfold new_object. auto 6 with silent. Qed.

Lemma silent_default_parameter v dflt :
  silent dflt → silent (default_parameter v dflt).
Proof. destruct v; simpl; auto with silent. Qed.

Lemma silent_validate_url url : silent (V2.validate_url url).
Proof. unfold V2.validate_url, new_URL_protocol. auto 6 with silent. Qed.

Hint Resolve silent_js_add silent_new_object silent_default_parameter
  silent_validate_url : silent.

(** After a silent step, what is logged is what the rest logs, or nothing
    when the step throws. *)
Lemma after_silent {A B} (m : M A) (k : A → M B)
    (Q : list event → Prop) st :
  silent m → Q [] → (∀ a st', Q (calls (k a st'))) →
  Q (calls ((m ≫= k) st)).
Proof.
  intros Hm Hnil Hk. rewrite bind_calls, Hm. simpl.
  destruct (result (m st)); [apply Hk | apply Hnil].
Qed.

(** *** [startServer] *)

Lemma startServer_run w PORT st :
  let port := match PORT with
              | VUndefined => VNumber (number_of_Z 3000)
              | _ => PORT
              end in
  let token := _BOT_TOKEN (this st) in
  V2.startServer w PORT st =
  match server_module w port token with
  | Return srv =>
      {| result := Return VUndefined;
         final := {| heap := heap st;
                     this := {| _BOT_TOKEN := token;
                                _webhookServer := Some srv |} |};
         calls := [EvStartServer port token (Return srv)] |}
  | Throw e =>
      {| result := Throw e; final := st;
         calls := [EvStartServer port token (Throw e)] |}
  end.
Proof.
  unfold V2.startServer. unfold_js. unfold_M.
  destruct PORT; simpl; destruct (server_module w _ _); reflexivity.
Qed.

(** *** The check of the URL *)

(** The check reads the store and does nothing else, and whatever goes
    wrong in it comes out as the one error. *)
Lemma validate_url_run url st :
  V2.validate_url url st =
  {| result :=
       match url_protocol (heap st) url with
       | Return protocol =>
           if String.eqb protocol "https:" then Return tt
           else Throw V2.invalid_webhook_URL
       | Throw _ => Throw V2.invalid_webhook_URL
       end;
     final := st; calls := [] |}.
Proof.
  unfold V2.validate_url. unfold_js. unfold_M. simpl.
  destruct (url_protocol (heap st) url) as [protocol|e]; simpl; [|done].
  by destruct (String.eqb protocol "https:").
Qed.

Lemma validate_url_accepts s st :
  URL_protocol s = Some "https:" →
  V2.validate_url (VString s) st
  = {| result := Return tt; final := st; calls := [] |}.
Proof.
  intros H. rewrite validate_url_run.
  unfold url_protocol. simpl. by rewrite H.
Qed.

Lemma validate_url_refuses s st :
  URL_protocol s ≠ Some "https:" →
  V2.validate_url (VString s) st
  = {| result := Throw V2.invalid_webhook_URL; final := st; calls := [] |}.
Proof.
  intros H. rewrite validate_url_run. unfold url_protocol. simpl.
  destruct (URL_protocol s) as [p|] eqn:Hp; simpl; [|reflexivity].
  destruct (String.eqb p "https:") eqn:Heq; [|reflexivity].
  apply String.eqb_eq in Heq. congruence.
Qed.

(** *** [setWebhook] *)

(** [setWebhook] calls no collaborator but [tapi], with the method
    [setWebhook], and at most once: every step before the call is silent. *)
Lemma setWebhook_calls w url options st :
  calls (V2.setWebhook w url options st) = []
  ∨ ∃ payload r,
      calls (V2.setWebhook w url options st) = [EvTapi "setWebhook" payload r].
Proof.
  unfold V2.setWebhook.
  repeat (apply after_silent; [by auto with silent | by left | intros ? ?]).
  right. unfold await_tapi. rewrite !bind_calls. simpl.
  destruct (tapi w _ _); simpl; eexists _, _; reflexivity.
Qed.

(** The run of [setWebhook] on an accepted URL and an object whose [path]
    is missing or falsy: the token is appended to the URL, the object is
    read and left as it is. *)
Lemma setWebhook_run_falsy_path w s l props st :
  URL_protocol s = Some "https:" →
  heap st !! l = Some props →
  ToBoolean (default VUndefined (props !! "path")) = false →
  let payload :=
    url_literal (VString (s +:+ _BOT_TOKEN (this st))) props in
  V2.setWebhook w (VString s) (VObject l) st
  = {| result := registered (tapi w "setWebhook" payload);
       final := st;
       calls := [EvTapi "setWebhook" payload (tapi w "setWebhook" payload)] |}.
Proof.
  intros Hs Hl Hpath payload.
  unfold V2.setWebhook, V2.or_else. unfold_js. unfold_M. simpl.
  rewrite validate_url_accepts by done. simpl.
  rewrite (props_at_lookup _ _ _ Hl), Hpath. simpl.
  subst payload. unfold own_properties. rewrite (props_at_lookup _ _ _ Hl).
  by destruct (tapi w "setWebhook" _).
Qed.

(** The run of [setWebhook] on an accepted URL and no [options]: the
    default object is created, and the token is appended to the URL. *)
Lemma setWebhook_run_no_options w s st :
  URL_protocol s = Some "https:" →
  let payload :=
    url_literal (VString (s +:+ _BOT_TOKEN (this st))) ∅ in
  V2.setWebhook w (VString s) VUndefined st
  = {| result := registered (tapi w "setWebhook" payload);
       final := {| heap := <[fresh (dom (heap st)) := ∅]> (heap st);
                   this := this st |};
       calls := [EvTapi "setWebhook" payload (tapi w "setWebhook" payload)] |}.
Proof.
  intros Hs payload.
  unfold V2.setWebhook, V2.or_else. unfold_js. unfold_M. simpl.
  rewrite validate_url_accepts by done. simpl.
  rewrite props_at_insert, lookup_empty. simpl.
  subst payload. unfold own_properties. rewrite props_at_insert.
  by destruct (tapi w "setWebhook" _).
Qed.

(** The run of [setWebhook] on an accepted URL and an object whose [path]
    is truthy: the property is deleted from the object in the store, then
    the path is appended to the URL, which throws when the path has no
    string; the call of [tapi] comes last. *)
Lemma setWebhook_run_truthy_path w s l props v st :
  URL_protocol s = Some "https:" →
  heap st !! l = Some props →
  props !! "path" = Some v →
  ToBoolean v = true →
  let st' := {| heap := <[l := delete "path" props]> (heap st);
                this := this st |} in
  V2.setWebhook w (VString s) (VObject l) st
  = match to_primitive (heap st') v with
    | Return pv =>
        let payload :=
          url_literal (VString (s +:+ string_of_primitive pv))
            (delete "path" props) in
        {| result := registered (tapi w "setWebhook" payload);
           final := st';
           calls :=
             [EvTapi "setWebhook" payload (tapi w "setWebhook" payload)] |}
    | Throw e => {| result := Throw e; final := st'; calls := [] |}
    end.
Proof.
  intros Hs Hl Hpath Hv st'. subst st'.
  unfold V2.setWebhook, V2.or_else. unfold_js. unfold_M. simpl.
  rewrite validate_url_accepts by done. simpl.
  rewrite (props_at_lookup _ _ _ Hl), Hpath. simpl. rewrite Hv. simpl.
  rewrite (props_at_lookup _ _ _ Hl).
  destruct (to_primitive _ v) as [pv|e]; simpl; [|done].
  unfold own_properties. rewrite props_at_insert.
  by destruct (tapi w "setWebhook" _).
Qed.

(** The literal [{ url: u, ...rest }], key by key. *)
Lemma url_literal_url u props :
  props !! "url" = None → url_literal u props !! "url" = Some u.
Proof.
  intros H. unfold url_literal.
  rewrite lookup_union_r by done. apply lookup_singleton_eq.
Qed.

Lemma url_literal_other u props k :
  k ≠ "url" → url_literal u props !! k = props !! k.
Proof.
  intros H. unfold url_literal. destruct (props !! k) as [x|] eqn:Hk.
  - by apply lookup_union_Some_l.
  - rewrite lookup_union_r by done. by apply lookup_singleton_ne.
Qed.

(** C2. A URL that does not parse, or whose protocol is not [https:],
    makes [setWebhook] throw its error at once: no collaborator is called
    (neither [tapi] nor the server), the bot is left as it was and so is
    every object of the store. *)
Theorem C2_non_https_url_is_refused w s options st :
  URL_protocol s ≠ Some "https:" →
  result (V2.setWebhook w (VString s) options st)
    = Throw V2.invalid_webhook_URL
  ∧ calls (V2.setWebhook w (VString s) options st) = []
  ∧ this (final (V2.setWebhook w (VString s) options st)) = this st
  ∧ ∀ l props,
      heap st !! l = Some props →
      heap (final (V2.setWebhook w (VString s) options st)) !! l = Some props.
Proof.
  intros Hs. unfold V2.setWebhook. unfold_js. unfold_M.
  destruct options; simpl; rewrite validate_url_refuses by done; simpl;
    repeat split; auto.
  intros l props Hl. rewrite lookup_insert_ne; [done|].
  intros <-. apply (is_fresh (dom (heap st))), elem_of_dom. eauto.
Qed.

(** C3, amended. On an accepted URL and options whose [path] is a string
    that is not empty, and which hold no [url] of their own, [setWebhook]
    calls [tapi] once, and in the payload [url] is the URL followed by the
    path, [path] is absent, and every other key is as in the options. *)
Theorem C3_explicit_path_is_appended_and_removed w s p l props st :
  URL_protocol s = Some "https:" →
  heap st !! l = Some props →
  props !! "path" = Some (VString p) →
  p ≠ "" →
  props !! "url" = None →
  ∃ payload,
    calls (V2.setWebhook w (VString s) (VObject l) st)
      = [EvTapi "setWebhook" payload (tapi w "setWebhook" payload)]
    ∧ payload !! "url" = Some (VString (s +:+ p))
    ∧ payload !! "path" = None
    ∧ ∀ k, k ≠ "url" → k ≠ "path" → payload !! k = props !! k.
Proof.
  intros Hs Hl Hpath Hp Hurl.
  assert (ToBoolean (VString p) = true) as Hv.
  { simpl. apply negb_true_iff. by apply String.eqb_neq. }
  exists (url_literal (VString (s +:+ p)) (delete "path" props)).
  rewrite (setWebhook_run_truthy_path w s l props _ st Hs Hl Hpath Hv).
  simpl. repeat split.
  - apply url_literal_url. by rewrite lookup_delete_ne.
  - rewrite url_literal_other by done. apply lookup_delete_eq.
  - intros k Hk1 Hk2. rewrite url_literal_other by done.
    by apply lookup_delete_ne.
Qed.

(** C4, amended. On an accepted URL, with no options or with options that
    hold neither [path] nor [url], [setWebhook] calls [tapi] once, and in
    the payload [url] is the URL followed by the token of the bot; every
    other key is as in the options. *)
Theorem C4_token_is_the_default_path w s options props st :
  URL_protocol s = Some "https:" →
  options_are st options props →
  props !! "path" = None →
  props !! "url" = None →
  ∃ payload,
    calls (V2.setWebhook w (VString s) options st)
      = [EvTapi "setWebhook" payload (tapi w "setWebhook" payload)]
    ∧ payload !! "url" = Some (VString (s +:+ _BOT_TOKEN (this st)))
    ∧ ∀ k, k ≠ "url" → payload !! k = props !! k.
Proof.
  intros Hs Hopt Hpath Hurl.
  exists (url_literal (VString (s +:+ _BOT_TOKEN (this st))) props).
  split; [|split; [by apply url_literal_url | by apply url_literal_other]].
  destruct Hopt as [[-> ->]|(l & -> & Hl)].
  - by rewrite setWebhook_run_no_options.
  - rewrite (setWebhook_run_falsy_path w s l props st Hs Hl); [done|].
    by rewrite Hpath.
Qed.

(** C9, amended. On an accepted URL and an object whose [path] is truthy,
    [setWebhook] changes the object it was given: when it is over, however
    it ends, the object has lost [path] and kept every other property, and
    no other object of the store has changed. *)
Theorem C9_path_is_deleted_from_the_object_passed w s l props v st :
  URL_protocol s = Some "https:" →
  heap st !! l = Some props →
  props !! "path" = Some v →
  ToBoolean v = true →
  ∃ props',
    heap (final (V2.setWebhook w (VString s) (VObject l) st)) !! l
      = Some props'
    ∧ props' !! "path" = None
    ∧ (∀ k, k ≠ "path" → props' !! k = props !! k)
    ∧ ∀ l', l' ≠ l →
        heap (final (V2.setWebhook w (VString s) (VObject l) st)) !! l'
        = heap st !! l'.
Proof.
  intros Hs Hl Hpath Hv. exists (delete "path" props).
  rewrite (setWebhook_run_truthy_path w s l props v st Hs Hl Hpath Hv).
  destruct (to_primitive _ v); simpl;
    (split; [apply lookup_insert_eq|];
     split; [apply lookup_delete_eq|];
     split; [intros k Hk; by apply lookup_delete_ne|];
     intros l' Hl'; by apply lookup_insert_ne).
Qed.

(** C10. The path given in the options counts when it is truthy: on an
    object whose [path] is falsy, the path [setWebhook] derives is the token
    of the bot; the object is left as it is, whatever the URL; and on an
    accepted URL the payload of the one call of [tapi] is the options, with
    their falsy [path], under the URL followed by the token. *)
Theorem C10_falsy_path_is_ignored_and_kept w url l props v st :
  heap st !! l = Some props →
  props !! "path" = Some v →
  ToBoolean v = false →
  V2.or_else v (VString (_BOT_TOKEN (this st))) = VString (_BOT_TOKEN (this st))
  ∧ heap (final (V2.setWebhook w url (VObject l) st)) = heap st
  ∧ ∀ s, url = VString s → URL_protocol s = Some "https:" →
      ∃ payload,
        calls (V2.setWebhook w url (VObject l) st)
          = [EvTapi "setWebhook" payload (tapi w "setWebhook" payload)]
        ∧ payload
          = url_literal (VString (s +:+ _BOT_TOKEN (this st))) props
        ∧ payload !! "path" = Some v.
Proof.
  intros Hl Hpath Hv. split; [|split].
  - unfold V2.or_else. by rewrite Hv.
  - unfold V2.setWebhook, V2.or_else. unfold_js. unfold_M. simpl.
    rewrite validate_url_run. simpl.
    destruct (url_protocol (heap st) url) as [protocol|e]; [|done].
    destruct (String.eqb protocol "https:"); [|done]. simpl.
    rewrite (props_at_lookup _ _ _ Hl), Hpath. simpl. rewrite Hv. simpl.
    destruct (to_primitive (heap st) url) as [pu|e]; simpl; [|done].
    destruct (is_string pu); simpl; by destruct (tapi w _ _).
  - intros s -> Hs. eexists. split; [|split; [reflexivity|]].
    + rewrite (setWebhook_run_falsy_path w s l props st Hs Hl); [done|].
      by rewrite Hpath.
    + rewrite url_literal_other by done. done.
Qed.

(** *** Start and registration together *)

(** [setWebhook] leaves the fields of the bot as they are. *)
Lemma setWebhook_this w url options st :
  this (final (V2.setWebhook w url options st)) = this st.
Proof.
  unfold V2.setWebhook, V2.or_else. unfold_js. unfold_M.
  destruct options; simpl; rewrite validate_url_run; simpl;
    (destruct (url_protocol _ url) as [protocol|?]; simpl; [|done]);
    (destruct (String.eqb protocol "https:"); simpl; [|done]);
    repeat match goal with
           | |- context [ToBoolean ?x] => destruct (ToBoolean x); simpl
           | |- context [to_primitive ?h ?x] =>
               destruct (to_primitive h x); simpl
           | |- context [is_string ?x] => destruct (is_string x); simpl
           | |- context [tapi w ?m ?p] => destruct (tapi w m p); simpl
           end; done.
Qed.

(** C1. Whatever [setWebhookAndStartServer] is given and whatever the
    collaborators do, a call of [tapi] it makes comes right after the one
    call of the function of ./server, which has returned the server the bot
    then holds: the listener is created before the registration is asked
    for. *)
Theorem C1_server_started_before_registration
    w options st pre post method payload r :
  calls (V2.setWebhookAndStartServer w options st)
    = pre ++ EvTapi method payload r :: post →
  ∃ port srv,
    pre = [EvStartServer port (_BOT_TOKEN (this st)) (Return srv)]
    ∧ _webhookServer
        (this (final (V2.setWebhookAndStartServer w options st)))
      = Some srv.
Proof.
  unfold V2.setWebhookAndStartServer. intros H.
  rewrite bind_calls in H. rewrite bind_final.
  unfold Get, reading in *. simpl in *.
  destruct (get (heap st) options "PORT") as [PORT|e]; [|by split_calls H].
  rewrite bind_calls in H. rewrite bind_final.
  rewrite startServer_run in *.
  destruct (server_module w _ _) as [srv|e]; simpl in *; [|by split_calls H].
  rewrite bind_calls in H. rewrite bind_final.
  match type of H with
  | context [V2.setWebhook w ?u ?o ?st'] =>
      pose proof (setWebhook_this w u o st') as Hthis;
      destruct (setWebhook_calls w u o st') as [Hs|(p & r' & Hs)];
      rewrite Hs in H; destruct (result (V2.setWebhook w u o st'))
  end; simpl in *; split_calls H;
    eexists _, _; (split; [reflexivity|]); by rewrite Hthis.
Qed.

(** *** [deleteWebhook] *)

(** Every run of [deleteWebhook] goes one of the seven ways. *)
Lemma deleteWebhook_teardown w st : teardown w st (V2.deleteWebhook w st).
Proof.
  unfold V2.deleteWebhook, V2.await_close. unfold_js. unfold_M. simpl.
  destruct (global_BOT_TOKEN w) as [token|] eqn:Htoken; simpl;
    [|by apply teardown_no_token].
  destruct (to_string (heap st) token) as [s|e] eqn:Hs; simpl;
    [|by eapply teardown_no_string].
  destruct (global_options w) as [options|] eqn:Hoptions; simpl;
    [|by eapply teardown_no_options].
  fold (teardown_payload s (own_properties (heap st) options)).
  set (payload := teardown_payload s (own_properties (heap st) options)).
  destruct (tapi w "deleteWebhook" payload) as [[]|e] eqn:Htapi; simpl;
    [|by eapply teardown_rejected].
  destruct (_webhookServer (this st)) as [srv|] eqn:Hsrv; simpl;
    [|by eapply teardown_no_server].
  destruct (server_close w srv) as [e|[e|]] eqn:Hclose; simpl.
  - rewrite <- Hclose.
    eapply (teardown_close_failed w st); eauto. by rewrite Hclose.
  - rewrite <- Hclose.
    eapply (teardown_close_failed w st); eauto. by rewrite Hclose.
  - rewrite <- Hclose.
    eapply (teardown_closed w st); eauto. by rewrite Hclose.
Qed.

(** Case analysis on the run of [deleteWebhook] of which [H] speaks. *)
Ltac teardown_cases w st H :=
  let T := fresh "T" in
  let Hrun := fresh "Hrun" in
  pose proof (deleteWebhook_teardown w st) as T;
  remember (V2.deleteWebhook w st) as d eqn:Hrun;
  destruct T; unfold caught in *; simpl in *; split_calls H.

(** The one call [deleteWebhook] makes to [tapi] comes first, and its
    payload is made from the global scope alone. *)
Lemma deleteWebhook_payload w st pre post method payload r :
  calls (V2.deleteWebhook w st) = pre ++ EvTapi method payload r :: post →
  pre = [] ∧ method = "deleteWebhook"
  ∧ ∃ token s options,
      global_BOT_TOKEN w = Some token
      ∧ to_string (heap st) token = Return s
      ∧ global_options w = Some options
      ∧ payload = teardown_payload s (own_properties (heap st) options).
Proof.
  intros H. teardown_cases w st H; subst; eauto 10.
Qed.

(** C5. In every run of [deleteWebhook], a call of [close] on the server
    comes right after the call of [tapi] for [deleteWebhook], and that call
    has succeeded. *)
Theorem C5_listener_closed_after_deregistration w st pre post srv r :
  calls (V2.deleteWebhook w st) = pre ++ EvClose srv r :: post →
  ∃ payload, pre = [EvTapi "deleteWebhook" payload (Return tt)].
Proof.
  intros H. teardown_cases w st H; eauto.
Qed.

(** C6. In every run of [deleteWebhook] in which the call of [tapi] for
    [deleteWebhook] fails, [close] is never called, [false] is returned, and
    the bot and the store are as before. *)
Theorem C6_failed_deregistration_leaves_the_listener_open
    w st pre post payload e :
  calls (V2.deleteWebhook w st)
    = pre ++ EvTapi "deleteWebhook" payload (Throw e) :: post →
  result (V2.deleteWebhook w st) = Return (VBoolean false)
  ∧ (∀ srv r, EvClose srv r ∉ calls (V2.deleteWebhook w st))
  ∧ final (V2.deleteWebhook w st) = st.
Proof.
  intros H. teardown_cases w st H.
  split; [reflexivity|]. split; [|reflexivity].
  intros srv r' Hin.
  repeat (apply elem_of_cons in Hin as [Hin|Hin]; [discriminate|]).
  by apply elem_of_nil in Hin.
Qed.

(** C7, amended. In every run of [deleteWebhook] in which [close] reports
    an error, by throwing or to its callback, the error is written to the
    console and [false] is returned, as for a failed deregistration:
    [true] is not returned and nothing is thrown to the caller. *)
Theorem C7_close_error_is_logged_and_false_returned
    w st pre post srv r e :
  calls (V2.deleteWebhook w st) = pre ++ EvClose srv r :: post →
  close_error r = Some e →
  result (V2.deleteWebhook w st) = Return (VBoolean false)
  ∧ post = [EvConsoleError "Failed to close internal webhook server";
            EvConsoleErrorValue e].
Proof.
  intros H He. teardown_cases w st H; [|congruence].
  split; [reflexivity|]. congruence.
Qed.

End Properties.

(** ** The statements on concrete runs *)

Section Examples.
#[local] Existing Instance sample_platform.
Import Sample.

(** C1 on a run: called with the URL itself, [setWebhookAndStartServer]
    starts the server on the default port and then registers. *)
Lemma C1_witness :
  calls (V2.setWebhookAndStartServer node_world
           (VString "https://example.com/") (empty_store new_bot))
  = [EvStartServer (VNumber (number_of_Z 3000)) "TOKEN" (Return 1)]
    ++ EvTapi "setWebhook" {[ "url" := VString "https://example.com/TOKEN" ]}
         (Return tt) :: []
  ∧ ∃ port srv,
      [EvStartServer (VNumber (number_of_Z 3000)) "TOKEN" (Return 1)]
      = [EvStartServer port (_BOT_TOKEN (this (empty_store new_bot)))
           (Return srv)]
      ∧ _webhookServer
          (this (final (V2.setWebhookAndStartServer node_world
                          (VString "https://example.com/")
                          (empty_store new_bot))))
        = Some srv.
Proof.
  split; [reflexivity|].
  apply (C1_server_started_before_registration node_world
           (VString "https://example.com/") (empty_store new_bot)
           [EvStartServer (VNumber (number_of_Z 3000)) "TOKEN" (Return 1)] []
           "setWebhook" {[ "url" := VString "https://example.com/TOKEN" ]}
           (Return tt)).
  reflexivity.
Defined.

(** C2 on a run: a URL in plain http is refused. *)
Lemma C2_witness :
  URL_protocol "http://example.com/" ≠ Some "https:"
  ∧ result (V2.setWebhook node_world (VString "http://example.com/")
              (VObject 1%positive) (store_with options_with_path new_bot))
    = Throw V2.invalid_webhook_URL
  ∧ calls (V2.setWebhook node_world (VString "http://example.com/")
             (VObject 1%positive) (store_with options_with_path new_bot))
    = [].
Proof.
  assert (URL_protocol "http://example.com/" ≠ Some "https:") as H
    by discriminate.
  split; [exact H|].
  destruct (C2_non_https_url_is_refused node_world "http://example.com/"
              (VObject 1%positive) (store_with options_with_path new_bot) H)
    as (Hr & Hc & _).
  split; [exact Hr | exact Hc].
Defined.

(** C3 on a run: the path of the options is appended, and is not sent. *)
Lemma C3_witness :
  URL_protocol "https://example.com/" = Some "https:"
  ∧ options_with_path !! "path" = Some (VString "x")
  ∧ options_with_path !! "url" = None
  ∧ ∃ payload,
      calls (V2.setWebhook node_world (VString "https://example.com/")
               (VObject 1%positive) (store_with options_with_path new_bot))
        = [EvTapi "setWebhook" payload (tapi node_world "setWebhook" payload)]
      ∧ payload !! "url" = Some (VString ("https://example.com/" +:+ "x"))
      ∧ payload !! "path" = None
      ∧ ∀ k, k ≠ "url" → k ≠ "path" →
          payload !! k = options_with_path !! k.
Proof.
  split; [reflexivity|]. split; [reflexivity|]. split; [reflexivity|].
  apply (C3_explicit_path_is_appended_and_removed node_world
           "https://example.com/" "x" 1%positive options_with_path
           (store_with options_with_path new_bot));
    [reflexivity | reflexivity | reflexivity | discriminate | reflexivity].
Defined.

(** C4 on a run: without options, the token is appended. *)
Lemma C4_witness :
  URL_protocol "https://example.com/" = Some "https:"
  ∧ options_are (empty_store new_bot) VUndefined ∅
  ∧ ∃ payload,
      calls (V2.setWebhook node_world (VString "https://example.com/")
               VUndefined (empty_store new_bot))
        = [EvTapi "setWebhook" payload (tapi node_world "setWebhook" payload)]
      ∧ payload !! "url" = Some (VString ("https://example.com/" +:+ "TOKEN"))
      ∧ ∀ k, k ≠ "url" → payload !! k = (∅ : gmap string value) !! k.
Proof.
  assert (options_are (empty_store new_bot) VUndefined ∅) as H
    by (left; split; reflexivity).
  split; [reflexivity|]. split; [exact H|].
  apply (C4_token_is_the_default_path node_world "https://example.com/"
           VUndefined ∅ (empty_store new_bot));
    [reflexivity | exact H | reflexivity | reflexivity].
Defined.

(** C9 on a run: the object passed has lost its path. *)
Lemma C9_witness :
  URL_protocol "https://example.com/" = Some "https:"
  ∧ heap (store_with options_with_path new_bot) !! 1%positive
    = Some options_with_path
  ∧ options_with_path !! "path" = Some (VString "x")
  ∧ ToBoolean (VString "x") = true
  ∧ ∃ props',
      heap (final (V2.setWebhook node_world (VString "https://example.com/")
                     (VObject 1%positive)
                     (store_with options_with_path new_bot))) !! 1%positive
        = Some props'
      ∧ props' !! "path" = None
      ∧ (∀ k, k ≠ "path" → props' !! k = options_with_path !! k)
      ∧ ∀ l', l' ≠ 1%positive →
          heap (final (V2.setWebhook node_world
                         (VString "https://example.com/")
                         (VObject 1%positive)
                         (store_with options_with_path new_bot))) !! l'
          = heap (store_with options_with_path new_bot) !! l'.
Proof.
  split; [reflexivity|]. split; [reflexivity|]. split; [reflexivity|].
  split; [reflexivity|].
  apply (C9_path_is_deleted_from_the_object_passed node_world
           "https://example.com/" 1%positive options_with_path (VString "x")
           (store_with options_with_path new_bot)); reflexivity.
Defined.

(** C10 on a run: an empty path is not used, and is sent. *)
Lemma C10_witness :
  options_with_empty_path !! "path" = Some (VString "")
  ∧ ToBoolean (VString "") = false
  ∧ heap (final (V2.setWebhook node_world (VString "https://example.com/")
                   (VObject 1%positive)
                   (store_with options_with_empty_path new_bot)))
    = heap (store_with options_with_empty_path new_bot)
  ∧ ∃ payload,
      calls (V2.setWebhook node_world (VString "https://example.com/")
               (VObject 1%positive)
               (store_with options_with_empty_path new_bot))
        = [EvTapi "setWebhook" payload (tapi node_world "setWebhook" payload)]
      ∧ payload
        = url_literal (VString ("https://example.com/" +:+ "TOKEN"))
            options_with_empty_path
      ∧ payload !! "path" = Some (VString "").
Proof.
  split; [reflexivity|]. split; [reflexivity|].
  destruct (C10_falsy_path_is_ignored_and_kept node_world
              (VString "https://example.com/") 1%positive
              options_with_empty_path (VString "")
              (store_with options_with_empty_path new_bot))
    as (_ & Hheap & Hcall); [reflexivity..|].
  split; [exact Hheap|].
  apply (Hcall "https://example.com/"); reflexivity.
Defined.

(** The same for the other falsy paths of C10, [0] and [null]: the token is
    appended and the path is sent along. *)
Example setWebhook_path_zero :
  calls (V2.setWebhook node_world (VString "https://example.com/")
           (VObject 1%positive)
           (store_with {[ "path" := VNumber (number_of_Z 0) ]} new_bot))
  = [EvTapi "setWebhook"
       {[ "url" := VString "https://example.com/TOKEN";
          "path" := VNumber (number_of_Z 0) ]} (Return tt)].
Proof. reflexivity. Qed.

Example setWebhook_path_null :
  calls (V2.setWebhook node_world (VString "https://example.com/")
           (VObject 1%positive) (store_with {[ "path" := VNull ]} new_bot))
  = [EvTapi "setWebhook"
       {[ "url" := VString "https://example.com/TOKEN"; "path" := VNull ]}
       (Return tt)].
Proof. reflexivity. Qed.

(** C3 as it was stated fails on options that hold a [url]: spread after
    the computed one, it takes its place in the payload. *)
Lemma C3_url_of_the_options_is_sent :
  URL_protocol "https://example.com/" = Some "https:"
  ∧ options_with_path_and_url !! "path" = Some (VString "x")
  ∧ calls (V2.setWebhook node_world (VString "https://example.com/")
             (VObject 1%positive)
             (store_with options_with_path_and_url new_bot))
    = [EvTapi "setWebhook" {[ "url" := VString "https://other.example/" ]}
         (Return tt)]
  ∧ ({[ "url" := VString "https://other.example/" ]} : gmap string value)
      !! "url"
    ≠ Some (VString ("https://example.com/" +:+ "x")).
Proof. repeat split; [reflexivity..|discriminate]. Qed.

(** C4 as it was stated fails in the same way, without a path. *)
Lemma C4_url_of_the_options_is_sent :
  URL_protocol "https://example.com/" = Some "https:"
  ∧ options_with_url !! "path" = None
  ∧ calls (V2.setWebhook node_world (VString "https://example.com/")
             (VObject 1%positive) (store_with options_with_url new_bot))
    = [EvTapi "setWebhook" {[ "url" := VString "https://other.example/" ]}
         (Return tt)]
  ∧ ({[ "url" := VString "https://other.example/" ]} : gmap string value)
      !! "url"
    ≠ Some (VString ("https://example.com/" +:+ "TOKEN")).
Proof. repeat split; [reflexivity..|discriminate]. Qed.

(** C9 as it was stated fails on a URL that is refused: the check comes
    before the deletion, and the object keeps its path. *)
Lemma C9_refused_url_leaves_the_path :
  options_with_path !! "path" = Some (VString "x")
  ∧ ToBoolean (VString "x") = true
  ∧ result (V2.setWebhook node_world (VString "http://example.com/")
              (VObject 1%positive) (store_with options_with_path new_bot))
    = Throw V2.invalid_webhook_URL
  ∧ heap (final (V2.setWebhook node_world (VString "http://example.com/")
                   (VObject 1%positive)
                   (store_with options_with_path new_bot))) !! 1%positive
    = Some options_with_path.
Proof. repeat split; reflexivity. Qed.

(** C5 on a run: with the identifiers bound, the server is closed after the
    deregistration. *)
Lemma C5_witness :
  calls (V2.deleteWebhook (bound_world "TOKEN" VUndefined)
           (empty_store started_bot))
  = [EvTapi "deleteWebhook"
       {[ "url" := VString "https://api.telegram.org/botTOKEN/" ]} (Return tt)]
    ++ EvClose 1 (CloseCallback None)
    :: [EvConsoleLog "Internal webhook server closed"]
  ∧ ∃ payload,
      [EvTapi "deleteWebhook"
         {[ "url" := VString "https://api.telegram.org/botTOKEN/" ]}
         (Return tt)]
      = [EvTapi "deleteWebhook" payload (Return tt)].
Proof.
  split; [reflexivity|].
  apply (C5_listener_closed_after_deregistration
           (bound_world "TOKEN" VUndefined) (empty_store started_bot)
           [EvTapi "deleteWebhook"
              {[ "url" := VString "https://api.telegram.org/botTOKEN/" ]}
              (Return tt)]
           [EvConsoleLog "Internal webhook server closed"]
           1 (CloseCallback None)).
  reflexivity.
Defined.

(** C6 on a run: the deregistration is rejected, the server stays. *)
Lemma C6_witness :
  calls (V2.deleteWebhook (rejecting_world "TOKEN") (empty_store started_bot))
  = [] ++ EvTapi "deleteWebhook"
            {[ "url" := VString "https://api.telegram.org/botTOKEN/" ]}
            (Throw (Thrown "ApiError"))
       :: [EvConsoleError "Failed to close internal webhook server";
           EvConsoleErrorValue (Thrown "ApiError")]
  ∧ result (V2.deleteWebhook (rejecting_world "TOKEN")
              (empty_store started_bot))
    = Return (VBoolean false)
  ∧ (∀ srv r,
       EvClose srv r
       ∉ calls (V2.deleteWebhook (rejecting_world "TOKEN")
                  (empty_store started_bot)))
  ∧ final (V2.deleteWebhook (rejecting_world "TOKEN")
             (empty_store started_bot))
    = empty_store started_bot.
Proof.
  split; [reflexivity|].
  apply (C6_failed_deregistration_leaves_the_listener_open
           (rejecting_world "TOKEN") (empty_store started_bot) []
           [EvConsoleError "Failed to close internal webhook server";
            EvConsoleErrorValue (Thrown "ApiError")]
           {[ "url" := VString "https://api.telegram.org/botTOKEN/" ]}
           (Thrown "ApiError")).
  reflexivity.
Defined.

(** C7 on a run: the server reports an error on closing; it is logged. *)
Lemma C7_witness :
  calls (V2.deleteWebhook (stuck_world "TOKEN") (empty_store started_bot))
  = [EvTapi "deleteWebhook"
       {[ "url" := VString "https://api.telegram.org/botTOKEN/" ]} (Return tt)]
    ++ EvClose 1 (CloseCallback (Some (Thrown "ERR_SERVER_NOT_RUNNING")))
    :: [EvConsoleError "Failed to close internal webhook server";
        EvConsoleErrorValue (Thrown "ERR_SERVER_NOT_RUNNING")]
  ∧ close_error (CloseCallback (Some (Thrown "ERR_SERVER_NOT_RUNNING")))
    = Some (Thrown "ERR_SERVER_NOT_RUNNING")
  ∧ result (V2.deleteWebhook (stuck_world "TOKEN") (empty_store started_bot))
    = Return (VBoolean false)
  ∧ [EvConsoleError "Failed to close internal webhook server";
     EvConsoleErrorValue (Thrown "ERR_SERVER_NOT_RUNNING")]
    = [EvConsoleError "Failed to close internal webhook server";
       EvConsoleErrorValue (Thrown "ERR_SERVER_NOT_RUNNING")].
Proof.
  split; [reflexivity|]. split; [reflexivity|].
  apply (C7_close_error_is_logged_and_false_returned
           (stuck_world "TOKEN") (empty_store started_bot)
           [EvTapi "deleteWebhook"
              {[ "url" := VString "https://api.telegram.org/botTOKEN/" ]}
              (Return tt)]
           [EvConsoleError "Failed to close internal webhook server";
            EvConsoleErrorValue (Thrown "ERR_SERVER_NOT_RUNNING")]
           1 (CloseCallback (Some (Thrown "ERR_SERVER_NOT_RUNNING")))
           (Thrown "ERR_SERVER_NOT_RUNNING")); reflexivity.
Defined.

(** C7 as it was stated fails: the deregistration succeeds, the server
    reports an error on closing, and the caller gets [false], not the
    error. *)
Lemma C7_close_error_is_not_thrown :
  calls (V2.deleteWebhook (stuck_world "TOKEN") (empty_store started_bot))
  = [EvTapi "deleteWebhook"
       {[ "url" := VString "https://api.telegram.org/botTOKEN/" ]} (Return tt);
     EvClose 1 (CloseCallback (Some (Thrown "ERR_SERVER_NOT_RUNNING")));
     EvConsoleError "Failed to close internal webhook server";
     EvConsoleErrorValue (Thrown "ERR_SERVER_NOT_RUNNING")]
  ∧ result (V2.deleteWebhook (stuck_world "TOKEN") (empty_store started_bot))
    = Return (VBoolean false)
  ∧ result (V2.deleteWebhook (stuck_world "TOKEN") (empty_store started_bot))
    ≠ Throw (Thrown "ERR_SERVER_NOT_RUNNING").
Proof. repeat split; [reflexivity..|discriminate]. Qed.

(** C8. From start to teardown on port 3000 at [https://example.com/]:
    the registration sends the URL followed by the token.  As Node runs the
    module, [deleteWebhook] then stops at the identifier [BOT_TOKEN], which
    nothing binds: no deregistration is sent, the server is not closed, and
    [false] is returned.  Were [BOT_TOKEN] and [options] bound in the global
    scope, the URL sent would be the address of the API with the token, not
    the URL that was registered. *)
Theorem C8_teardown_does_not_send_the_registered_url :
  calls (lifecycle node_world (VNumber (number_of_Z 3000))
           "https://example.com/" (empty_store new_bot))
  = [EvStartServer (VNumber (number_of_Z 3000)) "TOKEN" (Return 1);
     EvTapi "setWebhook" {[ "url" := VString "https://example.com/TOKEN" ]}
       (Return tt);
     EvConsoleError "Failed to close internal webhook server";
     EvConsoleErrorValue (ReferenceError "BOT_TOKEN")]
  ∧ result (lifecycle node_world (VNumber (number_of_Z 3000))
              "https://example.com/" (empty_store new_bot))
    = Return (VBoolean false)
  ∧ calls (lifecycle (bound_world "TOKEN" VUndefined)
             (VNumber (number_of_Z 3000)) "https://example.com/"
             (empty_store new_bot))
    = [EvStartServer (VNumber (number_of_Z 3000)) "TOKEN" (Return 1);
       EvTapi "setWebhook" {[ "url" := VString "https://example.com/TOKEN" ]}
         (Return tt);
       EvTapi "deleteWebhook"
         {[ "url" := VString "https://api.telegram.org/botTOKEN/" ]}
         (Return tt);
       EvClose 1 (CloseCallback None);
       EvConsoleLog "Internal webhook server closed"].
Proof. repeat split; reflexivity. Qed.

(** Given an object of options, as its parameter is documented,
    [setWebhookAndStartServer] starts the server on the port of the options
    and then hands the object to [setWebhook] as the URL, which refuses
    it. *)
Example setWebhookAndStartServer_on_an_object :
  calls (V2.setWebhookAndStartServer node_world (VObject 1%positive)
           (store_with {[ "PORT" := VNumber (number_of_Z 8080) ]} new_bot))
  = [EvStartServer (VNumber (number_of_Z 8080)) "TOKEN" (Return 1)]
  ∧ result (V2.setWebhookAndStartServer node_world (VObject 1%positive)
              (store_with {[ "PORT" := VNumber (number_of_Z 8080) ]} new_bot))
    = Throw V2.invalid_webhook_URL.
Proof. split; reflexivity. Qed.

(** The earlier revision registers first and starts the server next, when
    the identifiers it uses free are bound; as Node runs the module it stops
    at [BOT_TOKEN] before any call. *)
Example V1_registers_before_starting :
  calls (V1.setWebhookAndStartServer (bound_world "TOKEN" VUndefined) true
           (VNumber (number_of_Z 3000)) VUndefined (empty_store new_bot))
  = [EvTapi "setWebhook"
       {[ "url" := VString "https://api.telegram.org/botTOKEN/" ]} (Return tt);
     EvStartServer (VNumber (number_of_Z 3000)) "TOKEN" (Return 1)].
Proof. reflexivity. Qed.

Example V1_stops_at_the_free_identifier :
  result (V1.setWebhookAndStartServer node_world false
            (VNumber (number_of_Z 3000)) VUndefined (empty_store new_bot))
  = Throw (ReferenceError "BOT_TOKEN")
  ∧ calls (V1.setWebhookAndStartServer node_world false
             (VNumber (number_of_Z 3000)) VUndefined (empty_store new_bot))
    = [].
Proof. split; reflexivity. Qed.

End Examples.

(** * Further properties of the methods *)

(** Every way through [setWebhook]: the options taken or created, the URL
    refused or accepted, the path truthy or not, the conversions, the call. *)
Ltac setWebhook_ways w :=
  unfold V2.setWebhook, V2.or_else; unfold_js; unfold_M;
  match goal with
  | |- context [match ?options with VUndefined => _ | _ => _ end] =>
      destruct options
  end; simpl; rewrite validate_url_run; simpl;
  match goal with
  | |- context [url_protocol ?h ?url] =>
      let Hurl := fresh "Hurl" in
      destruct (url_protocol h url) as [?protocol|?] eqn:Hurl; simpl
  end;
  try match goal with
      | |- context [String.eqb ?p "https:"] =>
          let Hp := fresh "Hp" in
          destruct (String.eqb p "https:") eqn:Hp; simpl
      end;
  repeat match goal with
         | |- context [ToBoolean ?x] =>
             let Hb := fresh "Hb" in destruct (ToBoolean x) eqn:Hb; simpl
         | |- context [to_primitive ?h ?x] =>
             let Hx := fresh "Hx" in destruct (to_primitive h x) eqn:Hx; simpl
         | |- context [is_string ?x] => destruct (is_string x); simpl
         | |- context [tapi w ?m ?p] =>
             let Ht := fresh "Ht" in
             destruct (tapi w m p) as [[]|?] eqn:Ht; simpl
         end.

(** Every way through [deleteWebhook]. *)
Ltac teardown_ways w st :=
  let T := fresh "T" in
  let Hrun := fresh "Hrun" in
  pose proof (deleteWebhook_teardown w st) as T;
  remember (V2.deleteWebhook w st) as d eqn:Hrun;
  destruct T; unfold caught in *; simpl in *.

Section MoreProperties.
Context {P : Platform}.
Implicit Types (w : World) (st : state) (url options v : value).
Implicit Types (s : string) (l : loc) (props payload : gmap string value).
Implicit Types (h : gmap loc (gmap string value)).

Lemma bind_result {A B} (m : M A) (k : A → M B) st :
  result ((m ≫= k) st)
  = match result (m st) with
    | Return a => result (k a (final (m st)))
    | Throw e => Throw e
    end.
Proof.
  unfold mbind, M_bind, bind.
  destruct (m st) as [[a|e] st' c]; simpl; [|done].
  by destruct (k a st').
Qed.

(** ** [startServer] *)

(** X1. When ./server throws, [startServer] throws the same error after its
    one call, and the bot keeps the server it held before, if any. *)
Theorem startServer_failure_keeps_the_server_held w PORT st e :
  server_module w (port_or_default PORT) (_BOT_TOKEN (this st)) = Throw e →
  result (V2.startServer w PORT st) = Throw e
  ∧ calls (V2.startServer w PORT st)
    = [EvStartServer (port_or_default PORT) (_BOT_TOKEN (this st)) (Throw e)]
  ∧ final (V2.startServer w PORT st) = st.
Proof.
  intros H. rewrite startServer_run. fold (port_or_default PORT).
  by rewrite H.
Qed.

(** X2. Started twice, the bot holds the second server: ./server is called
    twice, each time with the port asked for (3000 when none is given), the
    first server is not closed and the bot no longer refers to it. *)
Theorem startServer_twice_replaces_the_server w PORT1 PORT2 st srv1 srv2 :
  server_module w (port_or_default PORT1) (_BOT_TOKEN (this st))
    = Return srv1 →
  server_module w (port_or_default PORT2) (_BOT_TOKEN (this st))
    = Return srv2 →
  calls ((V2.startServer w PORT1;; V2.startServer w PORT2) st)
    = [EvStartServer (port_or_default PORT1) (_BOT_TOKEN (this st))
         (Return srv1);
       EvStartServer (port_or_default PORT2) (_BOT_TOKEN (this st))
         (Return srv2)]
  ∧ this (final ((V2.startServer w PORT1;; V2.startServer w PORT2) st))
    = {| _BOT_TOKEN := _BOT_TOKEN (this st); _webhookServer := Some srv2 |}
  ∧ heap (final ((V2.startServer w PORT1;; V2.startServer w PORT2) st))
    = heap st.
Proof.
  intros H1 H2. rewrite bind_calls, !bind_final.
  rewrite (startServer_run w PORT1 st). fold (port_or_default PORT1).
  rewrite H1. simpl.
  rewrite startServer_run. fold (port_or_default PORT2). simpl.
  by rewrite H2.
Qed.

(** ** [setWebhook] *)

Lemma props_at_alloc h l :
  props_at (<[fresh (dom h) := ∅]> h) l = props_at h l.
Proof.
  unfold props_at. destruct (decide (l = fresh (dom h))) as [->|Hne].
  - rewrite lookup_insert_eq.
    by rewrite (not_elem_of_dom_1 h _ (is_fresh (dom h))).
  - by rewrite lookup_insert_ne.
Qed.

(** Creating the default options changes nothing to how a value converts
    and parses. *)
Lemma url_protocol_alloc h url :
  url_protocol (<[fresh (dom h) := ∅]> h) url = url_protocol h url.
Proof.
  unfold url_protocol, to_string, to_primitive.
  destruct url; try reflexivity. by rewrite props_at_alloc.
Qed.

(** A value that does not convert and parse to an https URL is refused. *)
Lemma setWebhook_refusal w url options st :
  url_protocol (heap st) url ≠ Return "https:" →
  result (V2.setWebhook w url options st) = Throw V2.invalid_webhook_URL
  ∧ calls (V2.setWebhook w url options st) = []
  ∧ this (final (V2.setWebhook w url options st)) = this st.
Proof.
  intros H.
  assert (∀ h, url_protocol h url = url_protocol (heap st) url →
               match url_protocol h url with
               | Return protocol =>
                   if String.eqb protocol "https:" then Return tt
                   else Throw V2.invalid_webhook_URL
               | Throw _ => Throw V2.invalid_webhook_URL
               end = Throw V2.invalid_webhook_URL) as Hcheck.
  { intros h ->. destruct (url_protocol (heap st) url) as [p|e]; [|done].
    destruct (String.eqb p "https:") eqn:Hp; [|done].
    apply String.eqb_eq in Hp. congruence. }
  unfold V2.setWebhook. unfold_js. unfold_M.
  destruct options; simpl; rewrite validate_url_run; simpl;
    rewrite Hcheck by (try apply url_protocol_alloc; done); done.
Qed.

(** X3. Whatever is given as the URL, a string or not, [setWebhook] refuses
    it with its one error unless it converts to a string that parses with
    the protocol [https:]: an error of the conversion or of the parser is
    replaced by that error, no call is made and the bot is left as it was,
    whatever the options. *)
Theorem setWebhook_refuses_every_value_but_an_https_URL w url options st :
  url_protocol (heap st) url ≠ Return "https:" →
  result (V2.setWebhook w url options st) = Throw V2.invalid_webhook_URL
  ∧ calls (V2.setWebhook w url options st) = []
  ∧ this (final (V2.setWebhook w url options st)) = this st.
Proof. apply setWebhook_refusal. Qed.

(** X4. The default of [options] stands for [undefined] only: on an
    accepted URL and [null] for options, [setWebhook] throws a TypeError at
    [options.path], before any call. *)
Theorem setWebhook_null_options_throw w s st :
  URL_protocol s = Some "https:" →
  V2.setWebhook w (VString s) VNull st
  = {| result := Throw TypeError; final := st; calls := [] |}.
Proof.
  intros Hs. unfold V2.setWebhook. unfold_js. unfold_M. simpl.
  by rewrite validate_url_accepts.
Qed.

(** X5. A truthy path of any kind is appended as a string: on an accepted
    URL and options without [url], the [url] sent is the URL followed by the
    path as it converts to a string once deleted from the options (a number
    by its digits, a plain object as ["[object Object]"]). *)
Theorem setWebhook_path_is_converted_to_a_string w s l props v pv st :
  URL_protocol s = Some "https:" →
  heap st !! l = Some props →
  props !! "path" = Some v →
  ToBoolean v = true →
  to_primitive (<[l := delete "path" props]> (heap st)) v = Return pv →
  props !! "url" = None →
  ∃ payload,
    calls (V2.setWebhook w (VString s) (VObject l) st)
      = [EvTapi "setWebhook" payload (tapi w "setWebhook" payload)]
    ∧ payload !! "url" = Some (VString (s +:+ string_of_primitive pv)).
Proof.
  intros Hs Hl Hpath Hv Hpv Hurl.
  rewrite (setWebhook_run_truthy_path w s l props v st Hs Hl Hpath Hv).
  simpl. rewrite Hpv. eexists. split; [reflexivity|].
  apply url_literal_url. by rewrite lookup_delete_ne.
Qed.

(** X6. The deletion of the path shows on a second call: after a call with
    an object whose [path] is a string, however that call ended, a call
    with the same URL and the same object registers the URL followed by the
    token, not by the path. *)
Theorem setWebhook_again_with_the_same_options w s p l props st :
  URL_protocol s = Some "https:" →
  heap st !! l = Some props →
  props !! "path" = Some (VString p) →
  p ≠ "" →
  props !! "url" = None →
  ∃ payload,
    calls (V2.setWebhook w (VString s) (VObject l)
             (final (V2.setWebhook w (VString s) (VObject l) st)))
      = [EvTapi "setWebhook" payload (tapi w "setWebhook" payload)]
    ∧ payload !! "url" = Some (VString (s +:+ _BOT_TOKEN (this st))).
Proof.
  intros Hs Hl Hpath Hp Hurl.
  assert (ToBoolean (VString p) = true) as Hv.
  { simpl. apply negb_true_iff. by apply String.eqb_neq. }
  rewrite (setWebhook_run_truthy_path w s l props _ st Hs Hl Hpath Hv).
  simpl.
  rewrite (setWebhook_run_falsy_path w s l (delete "path" props));
    [|done|apply lookup_insert_eq|by rewrite lookup_delete_eq].
  simpl. eexists. split; [reflexivity|].
  apply url_literal_url. by rewrite lookup_delete_ne.
Qed.

(** X7. [setWebhook] returns nothing but [true], and only after its call of
    [tapi] has succeeded. *)
Theorem setWebhook_returns_true_after_the_registration w url options st v :
  result (V2.setWebhook w url options st) = Return v →
  v = VBoolean true
  ∧ ∃ payload,
      calls (V2.setWebhook w url options st)
      = [EvTapi "setWebhook" payload (Return tt)].
Proof.
  setWebhook_ways w; intros [= <-]; eauto.
Qed.

(** X8. What a call of [tapi] throws, [setWebhook] throws to its caller,
    unchanged. *)
Theorem setWebhook_throws_what_tapi_throws
    w url options st pre post method payload e :
  calls (V2.setWebhook w url options st)
    = pre ++ EvTapi method payload (Throw e) :: post →
  result (V2.setWebhook w url options st) = Throw e.
Proof.
  setWebhook_ways w; intros H; split_calls H; congruence.
Qed.

(** X9. [setWebhook] changes no object of the store but the one given as
    options, whatever it is given and however it ends. *)
Theorem setWebhook_changes_no_other_object w url options st l props :
  heap st !! l = Some props →
  options ≠ VObject l →
  heap (final (V2.setWebhook w url options st)) !! l = Some props.
Proof.
  intros Hl Hne.
  assert (fresh (dom (heap st)) ≠ l) as Hfresh.
  { intros <-. apply (is_fresh (dom (heap st))), elem_of_dom. eauto. }
  setWebhook_ways w;
    rewrite ?lookup_insert_ne by congruence; done.
Qed.

(** The index of a character is written in digits. *)
Lemma pretty_N_go_not_p (x : N) (s : string) :
  (∀ t, s ≠ String "p" t) → ∀ t, pretty_N_go x s ≠ String "p" t.
Proof.
  revert s. induction (N.lt_wf_0 x) as [x _ IH]; intros s Hs t.
  assert (x = 0 ∨ 0 < x)%N as [->|?] by lia.
  - rewrite pretty_N_go_0. apply Hs.
  - rewrite pretty_N_go_step by done. apply IH.
    { by apply N.div_lt. }
    intros t'. unfold pretty_N_char. by repeat case_match.
Qed.

Lemma pretty_nat_not_path (i : nat) : pretty i ≠ "path".
Proof.
  unfold pretty, pretty_nat, pretty, pretty_N.
  case_decide; [done|]. by apply pretty_N_go_not_p.
Qed.

Lemma string_props_no_path (i : nat) (s : string) :
  string_props (P := P) i s !! "path" = None.
Proof.
  revert i. induction s as [|c s IH]; intros i; simpl.
  - apply lookup_empty.
  - rewrite lookup_insert_ne by apply pretty_nat_not_path. apply IH.
Qed.

(** X10. No truthy path is ever sent: whatever [setWebhook] is given, a
    [path] in the payload of its call is a falsy one. *)
Theorem setWebhook_sends_no_truthy_path
    w url options st pre post method payload r v :
  calls (V2.setWebhook w url options st)
    = pre ++ EvTapi method payload r :: post →
  payload !! "path" = Some v →
  ToBoolean v = false.
Proof.
  setWebhook_ways w; intros H Hv; split_calls H;
    rewrite url_literal_other in Hv by done; unfold own_properties in Hv;
    rewrite ?props_at_insert, ?lookup_delete_eq, ?lookup_empty,
      ?string_props_no_path in Hv;
    try done;
    match goal with
    | Hb : ToBoolean (default _ _) = false |- _ =>
        rewrite Hv in Hb; simpl in Hb; congruence
    end.
Qed.

(** ** [setWebhookAndStartServer] *)

(** X11. The start is not undone: once ./server has returned a server,
    [setWebhookAndStartServer] leaves it in the bot and never closes it,
    whether the registration that follows succeeds, fails or is refused. *)
Theorem setWebhookAndStartServer_keeps_the_server_started
    w options st port token srv rest :
  calls (V2.setWebhookAndStartServer w options st)
    = EvStartServer port token (Return srv) :: rest →
  _webhookServer (this (final (V2.setWebhookAndStartServer w options st)))
    = Some srv
  ∧ ∀ srv' r, EvClose srv' r ∉ rest.
Proof.
  unfold V2.setWebhookAndStartServer. intros H.
  rewrite bind_calls in H. rewrite bind_final.
  unfold Get, reading in *. simpl in *.
  destruct (get (heap st) options "PORT") as [PORT|e]; [|done].
  rewrite bind_calls in H. rewrite bind_final.
  rewrite startServer_run in *.
  destruct (server_module w _ _) as [srv0|e]; simpl in *; [|congruence].
  rewrite bind_calls in H. rewrite bind_final.
  match type of H with
  | context [V2.setWebhook w ?u ?o ?st'] =>
      pose proof (setWebhook_this w u o st') as Hthis;
      destruct (setWebhook_calls w u o st') as [Hs|(p & r' & Hs)];
      rewrite Hs in H; destruct (result (V2.setWebhook w u o st'))
  end; simpl in *; injection H as <- <- <- <-;
    (split; [by rewrite Hthis|]); intros srv' r Hin;
    repeat (apply elem_of_cons in Hin as [Hin|Hin]; [discriminate|]);
    by apply elem_of_nil in Hin.
Qed.

(** X12. When ./server throws, [setWebhookAndStartServer] throws the same
    error and stops there: nothing is registered and the bot is left as it
    was. *)
Theorem setWebhookAndStartServer_stops_when_the_server_fails
    w options PORT st e :
  get (heap st) options "PORT" = Return PORT →
  server_module w (port_or_default PORT) (_BOT_TOKEN (this st)) = Throw e →
  V2.setWebhookAndStartServer w options st
  = {| result := Throw e; final := st;
       calls := [EvStartServer (port_or_default PORT) (_BOT_TOKEN (this st))
                   (Throw e)] |}.
Proof.
  intros HPORT He. unfold V2.setWebhookAndStartServer.
  unfold mbind, M_bind, bind, Get, reading. rewrite HPORT. cbv beta iota.
  rewrite (startServer_run w PORT st). fold (port_or_default PORT).
  by rewrite He.
Qed.

(** X13. Given an object of options, [setWebhookAndStartServer] starts the
    server on the [PORT] of the object (3000 when it has none) and hands the
    object itself to [setWebhook] as the URL: as long as the parser does not
    take ["[object Object]"] for an https URL, the registration is refused
    with the error of an invalid URL, no call of [tapi] is made, and the
    server stays. *)
Theorem setWebhookAndStartServer_takes_an_object_for_the_URL w l st srv :
  URL_protocol "[object Object]" ≠ Some "https:" →
  server_module w
    (port_or_default (default VUndefined (props_at (heap st) l !! "PORT")))
    (_BOT_TOKEN (this st)) = Return srv →
  result (V2.setWebhookAndStartServer w (VObject l) st)
    = Throw V2.invalid_webhook_URL
  ∧ calls (V2.setWebhookAndStartServer w (VObject l) st)
    = [EvStartServer
         (port_or_default
            (default VUndefined (props_at (heap st) l !! "PORT")))
         (_BOT_TOKEN (this st)) (Return srv)]
  ∧ _webhookServer
      (this (final (V2.setWebhookAndStartServer w (VObject l) st)))
    = Some srv.
Proof.
  intros Hurl Hsrv.
  assert (∀ st', heap st' = heap st →
            url_protocol (heap st') (VObject l) ≠ Return "https:") as Hno.
  { intros st' ->. unfold url_protocol, to_string, to_primitive.
    destruct (props_at (heap st) l !! "toString"); [done|]. simpl.
    destruct (URL_protocol "[object Object]"); congruence. }
  unfold V2.setWebhookAndStartServer.
  rewrite bind_result, bind_calls, bind_final. unfold Get, reading. simpl.
  rewrite bind_result, bind_calls, bind_final, startServer_run.
  fold (port_or_default (default VUndefined (props_at (heap st) l !! "PORT"))).
  rewrite Hsrv. simpl.
  rewrite bind_result, bind_calls, bind_final.
  match goal with
  | |- context [V2.setWebhook w ?u ?o ?st'] =>
      destruct (setWebhook_refusal w u o st' (Hno st' eq_refl))
        as (Hr & Hc & Ht)
  end.
  by rewrite Hr, Hc, Ht.
Qed.

(** ** [deleteWebhook] *)

(** [deleteWebhook] catches whatever is thrown, and changes neither the bot
    nor the store. *)
Lemma deleteWebhook_returns w st :
  ∃ b, result (V2.deleteWebhook w st) = Return (VBoolean b)
       ∧ final (V2.deleteWebhook w st) = st.
Proof. teardown_ways w st; eauto. Qed.

(** X14. [deleteWebhook] never throws: in every world it returns a boolean.
    It changes neither the store nor the bot: after a close that succeeded,
    the bot still holds the server. *)
Theorem deleteWebhook_never_throws_and_keeps_the_server w st :
  (∃ b, result (V2.deleteWebhook w st) = Return (VBoolean b))
  ∧ final (V2.deleteWebhook w st) = st.
Proof.
  destruct (deleteWebhook_returns w st) as (b & Hr & Hf). eauto.
Qed.

(** X15. [deleteWebhook] returns [true] exactly when its log is the call of
    [tapi] for [deleteWebhook], which succeeded, the call of [close], whose
    callback got no error, and the line on the console. *)
Theorem deleteWebhook_true_means_deregistered_and_closed w st :
  result (V2.deleteWebhook w st) = Return (VBoolean true)
  ↔ ∃ payload srv,
      calls (V2.deleteWebhook w st)
      = [EvTapi "deleteWebhook" payload (Return tt);
         EvClose srv (CloseCallback None);
         EvConsoleLog "Internal webhook server closed"].
Proof.
  split.
  - intros H. teardown_ways w st; try discriminate H.
    destruct (server_close w srv) as [?|[?|]]; try discriminate. eauto.
  - intros (payload' & srv' & H). teardown_ways w st; split_calls H.
    reflexivity.
Qed.

(** X16. When the global scope binds no [BOT_TOKEN], or no [options],
    [deleteWebhook] does nothing but write the two lines of a failure to
    the console and return [false]: no call of [tapi], no call of
    [close]. *)
Theorem deleteWebhook_stops_at_an_unbound_identifier w st :
  global_BOT_TOKEN w = None ∨ global_options w = None →
  result (V2.deleteWebhook w st) = Return (VBoolean false)
  ∧ ∃ e, calls (V2.deleteWebhook w st) = failure_lines e.
Proof.
  intros H. teardown_ways w st; unfold failure_lines; eauto;
    destruct H; congruence.
Qed.

(** X17. On a bot whose server was never started, a deregistration that
    succeeds is still reported as a failure: the call of [tapi] comes
    first, then the TypeError of [close] on [undefined] is written to the
    console and [false] is returned. *)
Theorem deleteWebhook_without_a_server_deregisters_and_returns_false
    w st pre post method payload :
  _webhookServer (this st) = None →
  calls (V2.deleteWebhook w st)
    = pre ++ EvTapi method payload (Return tt) :: post →
  result (V2.deleteWebhook w st) = Return (VBoolean false)
  ∧ pre = [] ∧ post = failure_lines TypeError.
Proof.
  intros Hsrv H. teardown_ways w st; split_calls H; try congruence.
  done.
Qed.


(** ** The earlier revision *)

(** X19. In the earlier revision, with [BOT_TOKEN] bound to a string,
    [setWebhook] sends the options as they are, [path] included, under the
    address of the API with the token as [url], and leaves the object as it
    is. *)
Theorem V1_setWebhook_sends_the_options_as_they_are w token l props st :
  global_BOT_TOKEN w = Some (VString token) →
  heap st !! l = Some props →
  V1.setWebhook w (VObject l) st
  = {| result := registered (tapi w "setWebhook"
                               (url_literal (api_url token) props));
       final := st;
       calls := [EvTapi "setWebhook" (url_literal (api_url token) props)
                   (tapi w "setWebhook" (url_literal (api_url token) props))]
    |}.
Proof.
  intros Htoken Hl. unfold V1.setWebhook. unfold_js. unfold_M. simpl.
  rewrite Htoken. simpl. unfold own_properties.
  rewrite (props_at_lookup _ _ _ Hl). fold (api_url token).
  by destruct (tapi w "setWebhook" _).
Qed.

(** In the earlier revision [setWebhook] throws before any call, or makes
    its one call and returns according to it. *)
Lemma V1_setWebhook_shape w options st :
  (∃ e, result (V1.setWebhook w options st) = Throw e
        ∧ calls (V1.setWebhook w options st) = [])
  ∨ ∃ payload,
      calls (V1.setWebhook w options st)
        = [EvTapi "setWebhook" payload (tapi w "setWebhook" payload)]
      ∧ result (V1.setWebhook w options st)
        = registered (tapi w "setWebhook" payload).
Proof.
  unfold V1.setWebhook. unfold_js. unfold_M.
  destruct options; simpl;
    (destruct (global_BOT_TOKEN w) as [token|]; simpl; [|by eauto]);
    (destruct (to_string _ token) as [?|?]; simpl; [|by eauto]);
    match goal with
    | |- context [tapi w "setWebhook" ?p] =>
        right; exists p; by destruct (tapi w "setWebhook" p) as [[]|?]
    end.
Qed.

(** X20. In the earlier revision the order is the other one: a call of
    ./server by [setWebhookAndStartServer] comes right after the call of
    [tapi] for [setWebhook], which has succeeded; the webhook is registered
    before there is a server. *)
Theorem V1_server_started_after_registration
    w bound PORT options st pre post port token r :
  calls (V1.setWebhookAndStartServer w bound PORT options st)
    = pre ++ EvStartServer port token r :: post →
  ∃ payload, pre = [EvTapi "setWebhook" payload (Return tt)].
Proof.
  unfold V1.setWebhookAndStartServer, V1.startServer. intros H.
  rewrite bind_calls in H.
  destruct (V1_setWebhook_shape w options st)
    as [(e & Hr & Hc)|(payload & Hc & Hr)]; rewrite Hr, Hc in H.
  { by split_calls H. }
  destruct (tapi w "setWebhook" payload) as [[]|e]; simpl in H;
    [|by split_calls H].
  revert H. unfold_js. unfold_M.
  destruct PORT, bound; simpl;
    repeat match goal with
           | |- context [server_module w ?p ?t] =>
               destruct (server_module w p t); simpl
           end;
    intros H; split_calls H; eauto.
Qed.

(** X21. In the earlier revision, when the global scope binds no
    [BOT_TOKEN], [setWebhookAndStartServer] throws a ReferenceError before
    any call: nothing is registered and no server is started. *)
Theorem V1_stops_at_the_unbound_token w bound PORT options st :
  global_BOT_TOKEN w = None →
  result (V1.setWebhookAndStartServer w bound PORT options st)
    = Throw (ReferenceError "BOT_TOKEN")
  ∧ calls (V1.setWebhookAndStartServer w bound PORT options st) = []
  ∧ this (final (V1.setWebhookAndStartServer w bound PORT options st))
    = this st.
Proof.
  intros H. unfold V1.setWebhookAndStartServer, V1.setWebhook.
  unfold_js. unfold_M. destruct options; simpl; by rewrite H.
Qed.

End MoreProperties.

(** ** The further statements on concrete runs *)

Section MoreExamples.
#[local] Existing Instance sample_platform.
Import Sample MoreSample.

(** X1 on a run: the port is taken, the bot keeps server 1. *)
Lemma startServer_failure_witness :
  server_module no_server_world (port_or_default VUndefined)
    (_BOT_TOKEN (this (empty_store started_bot)))
  = Throw (Thrown "EADDRINUSE")
  ∧ result (V2.startServer no_server_world VUndefined
              (empty_store started_bot))
    = Throw (Thrown "EADDRINUSE")
  ∧ final (V2.startServer no_server_world VUndefined
             (empty_store started_bot))
    = empty_store started_bot.
Proof.
  split; [reflexivity|].
  destruct (startServer_failure_keeps_the_server_held no_server_world
              VUndefined (empty_store started_bot) (Thrown "EADDRINUSE"))
    as (Hr & _ & Hf); [reflexivity|].
  split; [exact Hr | exact Hf].
Defined.

(** X2 on a run: started on the default port and then on 8080, the bot
    holds server 2. *)
Lemma startServer_twice_witness :
  server_module two_servers_world (port_or_default VUndefined) "TOKEN"
  = Return 1
  ∧ server_module two_servers_world
      (port_or_default (VNumber (number_of_Z 8080))) "TOKEN"
    = Return 2
  ∧ this (final ((V2.startServer two_servers_world VUndefined;;
                  V2.startServer two_servers_world
                    (VNumber (number_of_Z 8080)))
                   (empty_store new_bot)))
    = {| _BOT_TOKEN := "TOKEN"; _webhookServer := Some 2 |}.
Proof.
  split; [reflexivity|]. split; [reflexivity|].
  destruct (startServer_twice_replaces_the_server two_servers_world
              VUndefined (VNumber (number_of_Z 8080)) (empty_store new_bot)
              1 2) as (_ & Ht & _); [reflexivity..|].
  exact Ht.
Defined.

(** X3 on a run: no URL at all is refused. *)
Lemma setWebhook_refuses_undefined_witness :
  url_protocol (heap (empty_store new_bot)) VUndefined ≠ Return "https:"
  ∧ result (V2.setWebhook node_world VUndefined VUndefined
              (empty_store new_bot))
    = Throw V2.invalid_webhook_URL
  ∧ calls (V2.setWebhook node_world VUndefined VUndefined
             (empty_store new_bot))
    = [].
Proof.
  assert (url_protocol (heap (empty_store new_bot)) VUndefined
          ≠ Return "https:") as H by discriminate.
  split; [exact H|].
  destruct (setWebhook_refuses_every_value_but_an_https_URL node_world
              VUndefined VUndefined (empty_store new_bot) H)
    as (Hr & Hc & _).
  split; [exact Hr | exact Hc].
Defined.

(** X4 on a run. *)
Lemma setWebhook_null_options_witness :
  URL_protocol "https://example.com/" = Some "https:"
  ∧ V2.setWebhook node_world (VString "https://example.com/") VNull
      (empty_store new_bot)
    = {| result := Throw TypeError; final := empty_store new_bot;
         calls := [] |}.
Proof.
  split; [reflexivity|].
  apply (setWebhook_null_options_throw node_world "https://example.com/"
           (empty_store new_bot)).
  reflexivity.
Defined.

(** X5 on a run: the path [7] is appended as ["7"]. *)
Lemma setWebhook_number_path_witness :
  options_with_number_path !! "path" = Some (VNumber (number_of_Z 7))
  ∧ ToBoolean (VNumber (number_of_Z 7)) = true
  ∧ ∃ payload,
      calls (V2.setWebhook node_world (VString "https://example.com/")
               (VObject 1%positive)
               (store_with options_with_number_path new_bot))
        = [EvTapi "setWebhook" payload (tapi node_world "setWebhook" payload)]
      ∧ payload !! "url"
        = Some (VString ("https://example.com/"
                         +:+ string_of_primitive (VNumber (number_of_Z 7)))).
Proof.
  split; [reflexivity|]. split; [reflexivity|].
  apply (setWebhook_path_is_converted_to_a_string node_world
           "https://example.com/" 1%positive options_with_number_path
           (VNumber (number_of_Z 7)) (VNumber (number_of_Z 7))
           (store_with options_with_number_path new_bot)); reflexivity.
Defined.

(** X6 on a run: the second call registers under the token. *)
Lemma setWebhook_again_witness :
  URL_protocol "https://example.com/" = Some "https:"
  ∧ options_with_path !! "path" = Some (VString "x")
  ∧ ∃ payload,
      calls (V2.setWebhook node_world (VString "https://example.com/")
               (VObject 1%positive)
               (final (V2.setWebhook node_world
                         (VString "https://example.com/")
                         (VObject 1%positive)
                         (store_with options_with_path new_bot))))
        = [EvTapi "setWebhook" payload (tapi node_world "setWebhook" payload)]
      ∧ payload !! "url"
        = Some (VString ("https://example.com/" +:+ "TOKEN")).
Proof.
  split; [reflexivity|]. split; [reflexivity|].
  apply (setWebhook_again_with_the_same_options node_world
           "https://example.com/" "x" 1%positive options_with_path
           (store_with options_with_path new_bot));
    [reflexivity | reflexivity | reflexivity | discriminate | reflexivity].
Defined.

(** X7 on a run. *)
Lemma setWebhook_returns_true_witness :
  result (V2.setWebhook node_world (VString "https://example.com/")
            VUndefined (empty_store new_bot))
  = Return (VBoolean true)
  ∧ ∃ payload,
      calls (V2.setWebhook node_world (VString "https://example.com/")
               VUndefined (empty_store new_bot))
      = [EvTapi "setWebhook" payload (Return tt)].
Proof.
  split; [reflexivity|].
  apply (setWebhook_returns_true_after_the_registration node_world
           (VString "https://example.com/") VUndefined (empty_store new_bot)
           (VBoolean true)).
  reflexivity.
Defined.

(** X8 on a run: the API rejects the call. *)
Lemma setWebhook_throws_witness :
  calls (V2.setWebhook offline_world (VString "https://example.com/")
           VUndefined (empty_store new_bot))
  = [] ++ EvTapi "setWebhook"
            {[ "url" := VString "https://example.com/TOKEN" ]}
            (Throw (Thrown "ApiError")) :: []
  ∧ result (V2.setWebhook offline_world (VString "https://example.com/")
              VUndefined (empty_store new_bot))
    = Throw (Thrown "ApiError").
Proof.
  split; [reflexivity|].
  apply (setWebhook_throws_what_tapi_throws offline_world
           (VString "https://example.com/") VUndefined (empty_store new_bot)
           [] [] "setWebhook"
           {[ "url" := VString "https://example.com/TOKEN" ]}
           (Thrown "ApiError")).
  reflexivity.
Defined.

(** X9 on a run: an object that is not the options keeps its path. *)
Lemma setWebhook_other_object_witness :
  heap (store_with options_with_path new_bot) !! 1%positive
  = Some options_with_path
  ∧ VUndefined ≠ VObject 1%positive
  ∧ heap (final (V2.setWebhook node_world (VString "https://example.com/")
                   VUndefined (store_with options_with_path new_bot)))
      !! 1%positive
    = Some options_with_path.
Proof.
  split; [reflexivity|]. split; [discriminate|].
  apply (setWebhook_changes_no_other_object node_world
           (VString "https://example.com/") VUndefined
           (store_with options_with_path new_bot) 1%positive
           options_with_path); [reflexivity | discriminate].
Defined.

(** X10 on a run: the path sent is the empty one. *)
Lemma setWebhook_no_truthy_path_witness :
  calls (V2.setWebhook node_world (VString "https://example.com/")
           (VObject 1%positive) (store_with options_with_empty_path new_bot))
  = [] ++ EvTapi "setWebhook"
            {[ "url" := VString "https://example.com/TOKEN";
               "path" := VString "" ]} (Return tt) :: []
  ∧ ({[ "url" := VString "https://example.com/TOKEN";
        "path" := VString "" ]} : gmap string value) !! "path"
    = Some (VString "")
  ∧ ToBoolean (VString "") = false.
Proof.
  split; [reflexivity|]. split; [reflexivity|].
  apply (setWebhook_sends_no_truthy_path node_world
           (VString "https://example.com/") (VObject 1%positive)
           (store_with options_with_empty_path new_bot) [] [] "setWebhook"
           {[ "url" := VString "https://example.com/TOKEN";
              "path" := VString "" ]} (Return tt) (VString ""));
    reflexivity.
Defined.

(** X11 on a run: the API rejects the registration, the server stays. *)
Lemma setWebhookAndStartServer_keeps_witness :
  calls (V2.setWebhookAndStartServer offline_world
           (VString "https://example.com/") (empty_store new_bot))
  = EvStartServer (VNumber (number_of_Z 3000)) "TOKEN" (Return 1)
    :: [EvTapi "setWebhook"
          {[ "url" := VString "https://example.com/TOKEN" ]}
          (Throw (Thrown "ApiError"))]
  ∧ _webhookServer
      (this (final (V2.setWebhookAndStartServer offline_world
                      (VString "https://example.com/")
                      (empty_store new_bot))))
    = Some 1.
Proof.
  split; [reflexivity|].
  destruct (setWebhookAndStartServer_keeps_the_server_started offline_world
              (VString "https://example.com/") (empty_store new_bot)
              (VNumber (number_of_Z 3000)) "TOKEN" 1
              [EvTapi "setWebhook"
                 {[ "url" := VString "https://example.com/TOKEN" ]}
                 (Throw (Thrown "ApiError"))]) as [Hsrv _]; [reflexivity|].
  exact Hsrv.
Defined.

(** X12 on a run: the port is taken, nothing is registered. *)
Lemma setWebhookAndStartServer_stops_witness :
  get (heap (empty_store new_bot)) (VString "https://example.com/") "PORT"
  = Return VUndefined
  ∧ server_module no_server_world (port_or_default VUndefined) "TOKEN"
    = Throw (Thrown "EADDRINUSE")
  ∧ V2.setWebhookAndStartServer no_server_world
      (VString "https://example.com/") (empty_store new_bot)
    = {| result := Throw (Thrown "EADDRINUSE");
         final := empty_store new_bot;
         calls := [EvStartServer (port_or_default VUndefined)
                     (_BOT_TOKEN (this (empty_store new_bot)))
                     (Throw (Thrown "EADDRINUSE"))] |}.
Proof.
  split; [reflexivity|]. split; [reflexivity|].
  apply (setWebhookAndStartServer_stops_when_the_server_fails
           no_server_world (VString "https://example.com/") VUndefined
           (empty_store new_bot) (Thrown "EADDRINUSE")); reflexivity.
Defined.

(** X13 on a run: options with a port and nothing else. *)
Lemma setWebhookAndStartServer_object_witness :
  URL_protocol "[object Object]" ≠ Some "https:"
  ∧ result (V2.setWebhookAndStartServer node_world (VObject 1%positive)
              (store_with {[ "PORT" := VNumber (number_of_Z 8080) ]} new_bot))
    = Throw V2.invalid_webhook_URL
  ∧ calls (V2.setWebhookAndStartServer node_world (VObject 1%positive)
             (store_with {[ "PORT" := VNumber (number_of_Z 8080) ]} new_bot))
    = [EvStartServer
         (port_or_default
            (default VUndefined
               (props_at
                  (heap (store_with
                           {[ "PORT" := VNumber (number_of_Z 8080) ]}
                           new_bot))
                  1%positive !! "PORT")))
         "TOKEN" (Return 1)].
Proof.
  assert (URL_protocol "[object Object]" ≠ Some "https:") as H
    by discriminate.
  split; [exact H|].
  destruct (setWebhookAndStartServer_takes_an_object_for_the_URL node_world
              1%positive
              (store_with {[ "PORT" := VNumber (number_of_Z 8080) ]} new_bot)
              1 H) as (Hr & Hc & _); [reflexivity|].
  split; [exact Hr | exact Hc].
Defined.

(** X16 on a run: as Node runs the module. *)
Lemma deleteWebhook_unbound_witness :
  (global_BOT_TOKEN node_world = None ∨ global_options node_world = None)
  ∧ result (V2.deleteWebhook node_world (empty_store started_bot))
    = Return (VBoolean false)
  ∧ ∃ e, calls (V2.deleteWebhook node_world (empty_store started_bot))
         = failure_lines e.
Proof.
  assert (global_BOT_TOKEN node_world = None
          ∨ global_options node_world = None) as H by (left; reflexivity).
  split; [exact H|].
  exact (deleteWebhook_stops_at_an_unbound_identifier node_world
           (empty_store started_bot) H).
Defined.

(** X17 on a run: the identifiers are bound, the server was not started. *)
Lemma deleteWebhook_without_a_server_witness :
  _webhookServer (this (empty_store new_bot)) = None
  ∧ calls (V2.deleteWebhook (bound_world "TOKEN" VUndefined)
             (empty_store new_bot))
    = [] ++ EvTapi "deleteWebhook"
              {[ "url" := VString "https://api.telegram.org/botTOKEN/" ]}
              (Return tt) :: failure_lines TypeError
  ∧ result (V2.deleteWebhook (bound_world "TOKEN" VUndefined)
              (empty_store new_bot))
    = Return (VBoolean false).
Proof.
  split; [reflexivity|]. split; [reflexivity|].
  destruct (deleteWebhook_without_a_server_deregisters_and_returns_false
              (bound_world "TOKEN" VUndefined) (empty_store new_bot) []
              (failure_lines TypeError) "deleteWebhook"
              {[ "url" := VString "https://api.telegram.org/botTOKEN/" ]})
    as (Hr & _); [reflexivity..|].
  exact Hr.
Defined.

(** X19 on a run: the path goes to the API. *)
Lemma V1_setWebhook_witness :
  global_BOT_TOKEN (bound_world "TOKEN" VUndefined) = Some (VString "TOKEN")
  ∧ heap (store_with options_with_path new_bot) !! 1%positive
    = Some options_with_path
  ∧ calls (V1.setWebhook (bound_world "TOKEN" VUndefined) (VObject 1%positive)
             (store_with options_with_path new_bot))
    = [EvTapi "setWebhook"
         {[ "url" := VString "https://api.telegram.org/botTOKEN/";
            "path" := VString "x";
            "max_connections" := VNumber (number_of_Z 40) ]}
         (Return tt)].
Proof.
  split; [reflexivity|]. split; [reflexivity|].
  rewrite (V1_setWebhook_sends_the_options_as_they_are
             (bound_world "TOKEN" VUndefined) "TOKEN" 1%positive
             options_with_path (store_with options_with_path new_bot));
    reflexivity.
Defined.

(** X20 on a run. *)
Lemma V1_order_witness :
  calls (V1.setWebhookAndStartServer (bound_world "TOKEN" VUndefined) true
           VUndefined VUndefined (empty_store new_bot))
  = [EvTapi "setWebhook"
       {[ "url" := VString "https://api.telegram.org/botTOKEN/" ]} (Return tt)]
    ++ EvStartServer (VNumber (number_of_Z 3000)) "TOKEN" (Return 1) :: []
  ∧ ∃ payload,
      [EvTapi "setWebhook"
         {[ "url" := VString "https://api.telegram.org/botTOKEN/" ]}
         (Return tt)]
      = [EvTapi "setWebhook" payload (Return tt)].
Proof.
  split; [reflexivity|].
  apply (V1_server_started_after_registration
           (bound_world "TOKEN" VUndefined) true VUndefined VUndefined
           (empty_store new_bot)
           [EvTapi "setWebhook"
              {[ "url" := VString "https://api.telegram.org/botTOKEN/" ]}
              (Return tt)] []
           (VNumber (number_of_Z 3000)) "TOKEN" (Return 1)).
  reflexivity.
Defined.

(** X21 on a run: as Node runs the module. *)
Lemma V1_unbound_token_witness :
  global_BOT_TOKEN node_world = None
  ∧ result (V1.setWebhookAndStartServer node_world true VUndefined VUndefined
              (empty_store new_bot))
    = Throw (ReferenceError "BOT_TOKEN")
  ∧ calls (V1.setWebhookAndStartServer node_world true VUndefined VUndefined
             (empty_store new_bot))
    = [].
Proof.
  split; [reflexivity|].
  destruct (V1_stops_at_the_unbound_token node_world true VUndefined
              VUndefined (empty_store new_bot)) as (Hr & Hc & _);
    [reflexivity|].
  split; [exact Hr | exact Hc].
Defined.

End MoreExamples.
